(** * Tensor-parallel sampling gather and pipe-batch preprocessing

    A shallow embedding of [tensor_parallel_sample] and [get_batch_pipe]
    from [megatron/ds_text_generation.py], with the tensor operations and
    the collective they call, and the properties the driver's specification
    states about them. *)

From Stdlib Require Import ZArith QArith.
From stdpp Require Import base option list strings gmap.

Local Open Scope nat_scope.

(** ** Tensors *)

Module Torch.

(** Element types of a tensor. *)
Inductive DType : Type :=
  | Float16 | BFloat16 | Float32 | Float64 | Int32 | Int64.

#[global] Instance DType_eq_dec : EqDecision DType.
Proof. solve_decision. Defined.

(** A dense tensor: its sizes, its element type and its elements in
    row-major order.  Elements are kept as integers (the stored word of the
    element); no operation modelled here computes with them, they are only
    moved, sliced and concatenated. *)
Record Tensor : Type := mkTensor {
  shape : list nat;
  dtype : DType;
  data  : list Z
}.

#[global] Instance Tensor_eq_dec : EqDecision Tensor.
Proof. solve_decision. Defined.

(** Exceptions the modelled operations raise. *)
Inductive Exn : Type :=
  | IndexError          (* indexing a missing dimension or position *)
  | KeyError            (* missing dictionary key *)
  | CatError            (* torch.cat: empty list, 0-dim or sizes differ *)
  | GatherListError     (* destination without one buffer per member *)
  | ShapeMismatch       (* gather: a shard does not fit its buffer *)
  | InvalidRank         (* gather: destination is no member of the group *)
  | CollectiveMismatch  (* members disagree on the collective's arguments *)
  | Hang                (* a member never reaches the rendezvous *)
  | SampleError         (* raised by the sampling primitive *)
  | Unmodelled.         (* behaviour outside this model *)

Inductive result (A : Type) : Type :=
  | Ok (a : A)
  | Raise (e : Exn).
Arguments Ok {A} a.
Arguments Raise {A} e.

Definition rbind {A B : Type} (r : result A) (f : A -> result B) : result B :=
  match r with
  | Ok a => f a
  | Raise e => Raise e
  end.

Notation "'let?' x ':=' r 'in' q" := (rbind r (fun x => q))
  (at level 10, x name, r at level 100, q at level 200).

Definition numel (s : list nat) : nat := foldr Nat.mul 1 s.

(** [t.dim()] *)
Definition dim (t : Tensor) : nat := length (shape t).

(** The storage holds exactly one element per position. *)
Definition well_formed (t : Tensor) : Prop :=
  length (data t) = numel (shape t).

(** Leading sizes and last size of a shape; [None] for a 0-dim tensor. *)
Definition split_last (s : list nat) : option (list nat * nat) :=
  match reverse s with
  | [] => None
  | n :: r => Some (reverse r, n)
  end.

(** Size of the last dimension (0 when there is none). *)
Definition last_size (t : Tensor) : nat :=
  match split_last (shape t) with
  | Some (_, n) => n
  | None => 0
  end.

(** The [r]-th slice along the last dimension of row-major storage whose
    last dimension has size [n]. *)
Definition row (n r : nat) (d : list Z) : list Z := take n (drop (r * n) d).

(** [torch.empty_like(t)]: same sizes and element type, storage not
    initialised.  [garbage] is what the fresh storage happens to hold. *)
Definition empty_like (garbage : nat -> Z) (t : Tensor) : Tensor :=
  mkTensor (shape t) (dtype t) (garbage <$> seq 0 (numel (shape t))).

(** [t[..., 0]]: position 0 of the last dimension, which is dropped. *)
Definition select_last_0 (t : Tensor) : result Tensor :=
  match split_last (shape t) with
  | None => Raise IndexError
  | Some (lead, n) =>
      if decide (n = 0) then Raise IndexError
      else Ok (mkTensor lead (dtype t)
                 ((fun r => default 0%Z (data t !! (r * n)))
                    <$> seq 0 (numel lead)))
  end.

(** Whether [t] has at least one dimension and leading sizes [lead]. *)
Definition has_lead (lead : list nat) (t : Tensor) : bool :=
  match split_last (shape t) with
  | Some (l, _) => bool_decide (l = lead)
  | None => false
  end.

(** [torch.cat(ts, dim=-1)]: the tensors side by side along the last
    dimension, in list order.  All must have the same leading sizes.
    Tensors of different element types, which torch promotes to a common
    type, are outside this model. *)
Definition cat_last (ts : list Tensor) : result Tensor :=
  match ts with
  | [] => Raise CatError
  | t0 :: _ =>
      match split_last (shape t0) with
      | None => Raise CatError
      | Some (lead, _) =>
          if negb (forallb (has_lead lead) ts) then Raise CatError
          else if negb (forallb (fun t => bool_decide (dtype t = dtype t0)) ts)
          then Raise Unmodelled
          else Ok (mkTensor (lead ++ [sum_list (last_size <$> ts)]) (dtype t0)
                     (r ← seq 0 (numel lead);
                      t ← ts; row (last_size t) r (data t)))
      end
  end.

(** [torch.narrow(t, -1, start, len)]: the contiguous slice
    [start .. start+len-1] of the last dimension; raises when the slice
    leaves the dimension. *)
Definition narrow_last (t : Tensor) (start len : nat) : result Tensor :=
  match split_last (shape t) with
  | None => Raise IndexError
  | Some (lead, n) =>
      if decide (start + len <= n)
      then Ok (mkTensor (lead ++ [len]) (dtype t)
                 (r ← seq 0 (numel lead);
                  take len (drop (r * n + start) (data t))))
      else Raise IndexError
  end.

(** Element at slice [r], position [c] of the last dimension. *)
Definition get (t : Tensor) (r c : nat) : option Z :=
  if decide (c < last_size t) then data t !! (r * last_size t + c) else None.

End Torch.

Import Torch.

(** ** A rank's program and the tensor-parallel group *)

Module Dist.

(** A rank's code as a tree of the calls it makes to its collaborators:
    the parallel-state getters, the allocator, the gather collective and
    the sampling primitive.  Each call carries its arguments and continues
    with the value the collaborator returns. *)
Inductive Prog (A : Type) : Type :=
  | Ret (a : A)
  | Throw (e : Exn)
  | GetWorldSize (k : nat -> Prog A)
  | GetRank (k : nat -> Prog A)
  | GetSrcRank (k : nat -> Prog A)
  | GetGroup (k : list nat -> Prog A)
  | EmptyLike (t : Tensor) (k : Tensor -> Prog A)
  | Gather (tensor : Tensor) (gather_list : list Tensor) (dst : nat)
           (group : list nat) (k : list Tensor -> Prog A)
  | Sample (logits : Tensor) (top_p : Q) (top_k : Z) (temperature : Q)
           (k : Tensor -> Prog A).
Arguments Ret {A} a.
Arguments Throw {A} e.
Arguments GetWorldSize {A} k.
Arguments GetRank {A} k.
Arguments GetSrcRank {A} k.
Arguments GetGroup {A} k.
Arguments EmptyLike {A} t k.
Arguments Gather {A} tensor gather_list dst group k.
Arguments Sample {A} logits top_p top_k temperature k.

Fixpoint bind {A B : Type} (p : Prog A) (f : A -> Prog B) : Prog B :=
  match p with
  | Ret a => f a
  | Throw e => Throw e
  | GetWorldSize k => GetWorldSize (fun x => bind (k x) f)
  | GetRank k => GetRank (fun x => bind (k x) f)
  | GetSrcRank k => GetSrcRank (fun x => bind (k x) f)
  | GetGroup k => GetGroup (fun x => bind (k x) f)
  | EmptyLike t k => EmptyLike t (fun x => bind (k x) f)
  | Gather t l d g k => Gather t l d g (fun x => bind (k x) f)
  | Sample l p q c k => Sample l p q c (fun x => bind (k x) f)
  end.

Notation "'let*' x ':=' p 'in' q" := (bind p (fun x => q))
  (at level 10, x name, p at level 100, q at level 200).

(** A pure tensor operation that may raise. *)
Definition lift {A : Type} (r : result A) : Prog A :=
  match r with
  | Ok a => Ret a
  | Raise e => Throw e
  end.

(** [[body for _ in range(n)]] *)
Fixpoint repeatM {A : Type} (n : nat) (body : Prog A) : Prog (list A) :=
  match n with
  | 0 => Ret []
  | S n' => let* x := body in let* xs := repeatM n' body in Ret (x :: xs)
  end.

(** The calls of the collaborators, as the code writes them. *)
Definition get_tensor_model_parallel_world_size : Prog nat := GetWorldSize Ret.
Definition get_tensor_model_parallel_rank : Prog nat := GetRank Ret.
Definition get_tensor_model_parallel_src_rank : Prog nat := GetSrcRank Ret.
Definition get_tensor_model_parallel_group : Prog (list nat) := GetGroup Ret.
Definition torch_empty_like (t : Tensor) : Prog Tensor := EmptyLike t Ret.
Definition torch_distributed_gather (tensor : Tensor)
    (gather_list : list Tensor) (dst : nat) (group : list nat)
  : Prog (list Tensor) :=
  Gather tensor gather_list dst group Ret.
Definition sample (logits : Tensor) (top_p : Q) (top_k : Z) (temperature : Q)
  : Prog Tensor :=
  Sample logits top_p top_k temperature Ret.

(** What a rank is observed to do. *)
Inductive Event : Type :=
  | EvAlloc (like : Tensor)
  | EvGather (tensor : Tensor) (gather_list : list Tensor) (dst : nat)
             (group : list nat)
  | EvSample (logits : Tensor) (top_p : Q) (top_k : Z) (temperature : Q).

Definition is_alloc (e : Event) : bool :=
  match e with EvAlloc _ => true | _ => false end.
Definition is_gather (e : Event) : bool :=
  match e with EvGather _ _ _ _ => true | _ => false end.
Definition is_sample (e : Event) : bool :=
  match e with EvSample _ _ _ _ => true | _ => false end.

(** The sampling primitive [megatron.text_generation.sampling.sample] is
    not part of this file: it is a parameter of the model.  It reads and
    advances the random generator's state. *)
Definition RngState : Type := Z.
Definition Sampler : Type :=
  RngState -> Tensor -> Q -> Z -> Q -> result (Tensor * RngState).

(** What the parallel-state getters answer on one rank, with the rank's
    sampling primitive and the contents of the storage it allocates
    (allocation number, then offset). *)
Record RankEnv : Type := mkEnv {
  env_world_size : nat;
  env_rank : nat;
  env_src_rank : nat;
  env_group : list nat;
  env_sampler : Sampler;
  env_uninit : nat -> nat -> Z
}.

(** A rank's own state: generator, allocations made, events so far. *)
Record RankState : Type := mkState {
  rng : RngState;
  allocs : nat;
  trace : list Event
}.

Definition log (e : Event) (st : RankState) : RankState :=
  mkState (rng st) (allocs st) (trace st ++ [e]).

(** A rank runs on its own until it returns, raises, or reaches the
    gather, where it waits for the other members of the group. *)
Inductive Paused (A : Type) : Type :=
  | Finished (r : result A) (st : RankState)
  | AtGather (tensor : Tensor) (gather_list : list Tensor) (dst : nat)
             (group : list nat) (k : list Tensor -> Prog A) (st : RankState).
Arguments Finished {A} r st.
Arguments AtGather {A} tensor gather_list dst group k st.

Fixpoint run_local {A : Type} (env : RankEnv) (p : Prog A) (st : RankState)
  : Paused A :=
  match p with
  | Ret a => Finished (Ok a) st
  | Throw e => Finished (Raise e) st
  | GetWorldSize k => run_local env (k (env_world_size env)) st
  | GetRank k => run_local env (k (env_rank env)) st
  | GetSrcRank k => run_local env (k (env_src_rank env)) st
  | GetGroup k => run_local env (k (env_group env)) st
  | EmptyLike t k =>
      run_local env (k (empty_like (env_uninit env (allocs st)) t))
        (mkState (rng st) (S (allocs st)) (trace st ++ [EvAlloc t]))
  | Gather t l d g k => AtGather t l d g k (log (EvGather t l d g) st)
  | Sample l p q c k =>
      match env_sampler env (rng st) l p q c with
      | Ok (tok, rng') =>
          run_local env (k tok)
            (mkState rng' (allocs st) (trace st ++ [EvSample l p q c]))
      | Raise e => Finished (Raise e) (log (EvSample l p q c) st)
      end
  end.

(** *** The gather collective *)

(** The arguments of one member's call to the gather. *)
Record GatherCall : Type := mkCall {
  gc_tensor : Tensor;
  gc_list : list Tensor;
  gc_dst : nat;
  gc_group : list nat
}.

Definition fits (buf t : Tensor) : bool :=
  bool_decide (shape buf = shape t) && bool_decide (dtype buf = dtype t).

(** The buffer after receiving [t]'s elements. *)
Definition fill (buf t : Tensor) : Tensor :=
  mkTensor (shape buf) (dtype buf) (data t).

Definition same_collective (c0 c : GatherCall) : bool :=
  bool_decide (gc_dst c = gc_dst c0) && bool_decide (gc_group c = gc_group c0).

(** Modelled from the spec: the collective
    [torch.distributed.gather(tensor, gather_list, dst, group)] of the
    communication runtime, which is not part of this file.  It is a
    blocking all-to-one transfer that every member of the group enters,
    [dst] naming the destination by its global rank.  The destination
    supplies one receive buffer per member and finds them filled with the
    members' tensors in the order of their ranks in the group; a tensor
    that does not fit its buffer is a shape-mismatch error; a destination
    outside the group is fatal.  Other members receive nothing: their
    lists are left as they are.

    [gather_to c0 calls] is the collective all members entered with the
    arguments of [c0]. *)
Definition gather_to (c0 : GatherCall) (calls : list GatherCall)
  : result (list (list Tensor)) :=
  if negb (forallb (same_collective c0) calls) then Raise CollectiveMismatch
  else if negb (bool_decide (length (gc_group c0) = length calls))
  then Raise Hang
  else
    match list_find (fun m => m = gc_dst c0) (gc_group c0) with
    | None => Raise InvalidRank
    | Some (d, _) =>
        match calls !! d with
        | None => Raise InvalidRank
        | Some cd =>
            if negb (bool_decide (length (gc_list cd) = length calls))
            then Raise GatherListError
            else if negb (forallb (fun bc => fits bc.1 (gc_tensor bc.2))
                            (zip (gc_list cd) calls))
            then Raise ShapeMismatch
            else Ok (imap (fun i c =>
                             if decide (i = d)
                             then zip_with fill (gc_list cd)
                                    (gc_tensor <$> calls)
                             else gc_list c) calls)
        end
    end.

(** The members' calls, in the order of their ranks in the group, to the
    list each member holds afterwards. *)
Definition gather_collective (calls : list GatherCall)
  : result (list (list Tensor)) :=
  match head calls with
  | None => Ok []
  | Some c0 => gather_to c0 calls
  end.

(** *** Running the members of a group in lockstep *)

Definition waiting {A : Type} (p : Paused A) : bool :=
  match p with AtGather _ _ _ _ _ _ => true | Finished _ _ => false end.

Definition call_of {A : Type} (p : Paused A) : option GatherCall :=
  match p with
  | AtGather t l d g _ _ => Some (mkCall t l d g)
  | Finished _ _ => None
  end.

(** A member left waiting at a rendezvous the others never reach. *)
Definition abandon {A : Type} (p : Paused A) : result A * RankState :=
  match p with
  | Finished r st => (r, st)
  | AtGather _ _ _ _ _ st => (Raise Hang, st)
  end.

(** The code modelled here has one rendezvous; a second one is outside
    the model. *)
Definition settle {A : Type} (p : Paused A) : result A * RankState :=
  match p with
  | Finished res st => (res, st)
  | AtGather _ _ _ _ _ st => (Raise Unmodelled, st)
  end.

(** A member continues after the collective: with its list, or with the
    collective's failure, which aborts the step for the whole group. *)
Definition resume {A : Type} (env : RankEnv) (i : nat) (p : Paused A)
    (r : result (list (list Tensor))) : result A * RankState :=
  match p with
  | Finished res st => (res, st)
  | AtGather _ _ _ _ k st =>
      match r with
      | Raise e => (Raise e, st)
      | Ok lists =>
          match lists !! i with
          | None => (Raise Unmodelled, st)
          | Some l => settle (run_local env (k l) st)
          end
      end
  end.

(** One step of the group: every member runs to the rendezvous, the
    collective is performed, every member runs to its end. *)
Definition run_group {A : Type} (ranks : list (RankEnv * Prog A * RankState))
  : list (result A * RankState) :=
  let paused := (fun r => run_local r.1.1 r.1.2 r.2) <$> ranks in
  if forallb waiting paused then
    let r := gather_collective (omap call_of paused) in
    imap (fun i ep => resume ep.1 i ep.2 r) (zip ((fun r => r.1.1) <$> ranks) paused)
  else abandon <$> paused.

End Dist.

Import Dist.

(** ** The tensor-parallel sampling gather *)

(** [tensor_parallel_sample], lines 80-98.  The gather writes into the
    buffers of [tensor_list]; here it returns the list as it is afterwards.
    [.contiguous()] only changes how a tensor is laid out in memory. *)
Definition tensor_parallel_sample (logits : Tensor) (top_p : Q) (top_k : Z)
    (temperature : Q) : Prog Tensor :=
  let* world_size := get_tensor_model_parallel_world_size in
  let* rank := get_tensor_model_parallel_rank in
  let* dst_rank := get_tensor_model_parallel_src_rank in
  let* tensor_list :=
    (if decide (rank = 0)
     then repeatM world_size (torch_empty_like logits)
     else Ret []) in
  let* group := get_tensor_model_parallel_group in
  let* tensor_list :=
    torch_distributed_gather logits tensor_list dst_rank group in
  if decide (rank = 0) then
    let* logits := lift (cat_last tensor_list) in
    sample logits top_p top_k temperature
  else
    let* slice := lift (select_last_0 logits) in
    torch_empty_like slice.

(** A tensor-parallel group: the global ranks of its members, in the order
    of their ranks in the group, and the global rank the framework
    designates as source/destination of the group's collectives. *)
Record TPGroup : Type := mkGroup {
  members : list nat;
  src_rank : nat
}.

(** What one member brings to the call. *)
Record RankInput : Type := mkInput {
  in_logits : Tensor;
  in_rng : RngState;
  in_uninit : nat -> nat -> Z
}.

(** Modelled from the spec: what the getters of
    [megatron.core.parallel_state] (not part of this file) report to the
    member of rank [i]: the group's size, the member's rank in the group,
    the designated destination and the group itself. *)
Definition rank_env (g : TPGroup) (smp : Sampler) (i : nat) (inp : RankInput)
  : RankEnv :=
  mkEnv (length (members g)) i (src_rank g) (members g) smp (in_uninit inp).

Definition init_state (inp : RankInput) : RankState :=
  mkState (in_rng inp) 0 [].

(** Every member of the group calls [tensor_parallel_sample] on its shard
    with the same sampling parameters. *)
Definition run_tensor_parallel_sample (g : TPGroup) (smp : Sampler)
    (inputs : list RankInput) (top_p : Q) (top_k : Z) (temperature : Q)
  : list (result Tensor * RankState) :=
  run_group
    (imap (fun i inp =>
             (rank_env g smp i inp,
              tensor_parallel_sample (in_logits inp) top_p top_k temperature,
              init_state inp)) inputs).

(** ** Pipe-batch preprocessing *)

Module Batch.

(** [d[key]] *)
Definition getitem (d : gmap string Tensor) (key : string) : result Tensor :=
  match d !! key with
  | Some t => Ok t
  | None => Raise KeyError
  end.

(** [t.squeeze(1)]: dimension 1 is removed when its size is 1. *)
Definition squeeze_1 (t : Tensor) : Tensor :=
  match shape t with
  | b :: 1 :: rest => mkTensor (b :: rest) (dtype t) (data t)
  | _ => t
  end.

(** [t.long()] on a tensor of integers: the values are kept.  Converting
    floating-point elements is outside this model. *)
Definition long (t : Tensor) : result Tensor :=
  match dtype t with
  | Int32 | Int64 => Ok (mkTensor (shape t) Int64 (data t))
  | _ => Raise Unmodelled
  end.

(** A slice bound of Python, on a dimension of size [m]: negative bounds
    count from the end, and the result is clipped to [0 .. m]. *)
Definition clip_bound (m : nat) (i : Z) : nat :=
  if (i <? 0)%Z then Z.to_nat (Z.of_nat m + i) else Nat.min (Z.to_nat i) m.

(** [t[:, start:stop]] ([None] for an omitted bound): positions
    [start .. stop-1] of dimension 1. *)
Definition slice_dim1 (t : Tensor) (start stop : option Z) : result Tensor :=
  match shape t with
  | b :: m :: rest =>
      let lo := from_option (clip_bound m) 0 start in
      let hi := from_option (clip_bound m) m stop in
      let len := hi - lo in
      let inner := numel rest in
      Ok (mkTensor (b :: len :: rest) (dtype t)
            (r ← seq 0 b;
             take (len * inner) (drop ((r * m + lo) * inner) (data t))))
  | _ => Raise IndexError
  end.

(** [t.size()[1]] *)
Definition size_1 (t : Tensor) : result nat :=
  match shape t with
  | _ :: m :: _ => Ok m
  | _ => Raise IndexError
  end.

(** The fields of [get_args()] the function reads. *)
Record Args : Type := mkArgs {
  reset_position_ids : bool;
  reset_attention_mask : bool;
  eod_mask_loss : bool;
  curriculum_learning_legacy : bool;
  curriculum_seqlen : Z
}.

(** What [get_batch_pipe] returns, and [data] as the call leaves it. *)
Record BatchOut : Type := mkOut {
  tokens : Tensor;
  position_ids : Tensor;
  attention_mask : Tensor;
  labels : Tensor;
  loss_mask : Tensor;
  data_after : gmap string Tensor
}.

Section GetBatchPipe.

(** The collaborators the function calls; none is part of this file. *)
Variable get_args : Args.
Variable tokenizer_eod : Z.
(** [tensor_parallel.broadcast_data(keys, data, datatype)] *)
Variable broadcast_data :
  list string -> gmap string Tensor -> DType -> result (gmap string Tensor).
(** [get_ltor_masks_and_position_ids(data, eod_token, reset_position_ids,
    reset_attention_mask, eod_mask_loss)], returning
    [(attention_mask, loss_mask, position_ids)]. *)
Variable get_ltor_masks_and_position_ids :
  Tensor -> Z -> bool -> bool -> bool -> result (Tensor * Tensor * Tensor).

(** [get_batch_pipe], lines 175-210.  The assignment to [data['text']]
    changes the caller's dictionary: the result carries it as
    [data_after]. *)
Definition get_batch_pipe (data : gmap string Tensor) : result BatchOut :=
  let args := get_args in
  let? text := getitem data "text" in
  let data :=
    if decide (dim text = 3) then <["text" := squeeze_1 text]> data
    else data in
  let keys := ["text"%string] in
  let datatype := Int64 in
  let? data_b := broadcast_data keys data datatype in
  let? text_b := getitem data_b "text" in
  let? tokens_ := long text_b in
  let? labels := slice_dim1 tokens_ (Some 1%Z) None in
  let? tokens := slice_dim1 tokens_ None (Some (-1)%Z) in
  let? masks :=
    get_ltor_masks_and_position_ids tokens tokenizer_eod
      (reset_position_ids args) (reset_attention_mask args)
      (eod_mask_loss args) in
  let '(attention_mask, loss_mask, position_ids) := masks in
  let? truncate :=
    (if curriculum_learning_legacy args
     then let? width := size_1 tokens in
          Ok (bool_decide (curriculum_seqlen args < Z.of_nat width)%Z)
     else Ok false) in
  if truncate then
    let seqlen := Some (curriculum_seqlen args) in
    let? tokens := slice_dim1 tokens None seqlen in
    let? position_ids := slice_dim1 position_ids None seqlen in
    let? labels := slice_dim1 labels None seqlen in
    let? loss_mask := slice_dim1 loss_mask None seqlen in
    Ok (mkOut tokens position_ids attention_mask labels loss_mask data)
  else
    Ok (mkOut tokens position_ids attention_mask labels loss_mask data).

End GetBatchPipe.

(** Column [c] of row [r] of a two-dimensional tensor. *)
Definition at2 (t : Tensor) (r c : nat) : option Z :=
  match shape t with
  | [_; n] => if decide (c < n) then data t !! (r * n + c) else None
  | _ => None
  end.

(** Number of columns (size of dimension 1). *)
Definition columns (t : Tensor) : nat :=
  match shape t with
  | _ :: m :: _ => m
  | _ => 0
  end.

End Batch.

(** ** A concrete sampling primitive, for evaluating the model *)

(** Index of the first largest element of a row. *)
Fixpoint argmax_from (i best : nat) (bestv : Z) (l : list Z) : nat :=
  match l with
  | [] => best
  | x :: l' =>
      if (bestv <? x)%Z then argmax_from (S i) i x l'
      else argmax_from (S i) best bestv l'
  end.

Definition argmax (l : list Z) : nat :=
  match l with
  | [] => 0
  | x :: l' => argmax_from 1 0 x l'
  end.

(** Modelled from the spec: the sampling primitive
    ([megatron/text_generation/sampling.py], not part of this file) on its
    deterministic setting, [top_k = 1] with [top_p = 0] and a positive
    temperature: one token per batch element, the position of the largest
    logit (logits compared as the integers that stand for them), as an
    integer token id; the generator is not consulted.  Any
    other setting draws from a distribution, or has a temperature the
    specification leaves undefined, and is left out of this instance. *)
Definition greedy_sample : Sampler :=
  fun rng logits top_p top_k temperature =>
    match split_last (shape logits) with
    | None => Raise SampleError
    | Some (lead, n) =>
        if decide (n = 0) then Raise SampleError
        else if bool_decide (top_k = 1%Z) && Qeq_bool top_p 0
                && negb (Qle_bool temperature 0)
        then Ok (mkTensor lead Int64
                   ((fun r => Z.of_nat (argmax (row n r (data logits))))
                      <$> seq 0 (numel lead)), rng)
        else Raise Unmodelled
    end.

(** ** Concrete collaborators of [get_batch_pipe], for evaluating the model *)

(** Modelled from the spec: [tensor_parallel.broadcast_data] (in
    [megatron/core/tensor_parallel], not part of this file) as the member
    the data is broadcast from sees it: the tensors under [keys], with the
    requested element type, which they must already have. *)
Definition broadcast_from_self (keys : list string)
    (data : gmap string Tensor) (datatype : DType)
  : result (gmap string Tensor) :=
  foldr (fun key acc =>
           rbind acc (fun m =>
             match data !! key with
             | None => Raise KeyError
             | Some t =>
                 if decide (dtype t = datatype) then Ok (<[key := t]> m)
                 else Raise Unmodelled
             end))
        (Ok ∅) keys.

(** Modelled from the spec: [get_ltor_masks_and_position_ids] (in
    [megatron/utils.py], not part of this file), as far as the source of
    [get_batch_pipe] states it: position ids and loss mask have the sizes
    [[batch size, seqlen]] of the tokens.  Position ids count the columns,
    the loss mask is all ones and the attention mask is the causal
    [[1, 1, seqlen, seqlen]] mask; resets and end-of-document masking are
    left out. *)
Definition ltor_masks_plain (toks : Tensor) (eod : Z)
    (reset_pos reset_att eod_loss : bool)
  : result (Tensor * Tensor * Tensor) :=
  match shape toks with
  | [b; n] =>
      Ok (mkTensor [1; 1; n; n] Int64
            (r ← seq 0 n; (fun c => if decide (r < c) then 1%Z else 0%Z) <$> seq 0 n),
          mkTensor [b; n] Float32 (replicate (b * n) 1%Z),
          mkTensor [b; n] Int64 (_ ← seq 0 b; Z.of_nat <$> seq 0 n))
  | _ => Raise IndexError
  end.

(** * Vocabulary of the properties

    Predicates on groups and shards, the reference the gather is compared
    with, and the descriptions of a member's run that the lemmas below
    derive from [run_local]. *)

Import Batch.

(** Tensors that all have sizes [lead ++ [v]] and element type [dt]. *)
Definition uniform (lead : list nat) (v : nat) (dt : DType) (ts : list Tensor)
  : Prop :=
  Forall (fun t => shape t = lead ++ [v] /\ dtype t = dt) ts.

(** The receive buffers of a rank whose next allocation is number [first]. *)
Definition recv_buffers (un : nat -> nat -> Z) (first n : nat)
    (logits : Tensor) : list Tensor :=
  (fun a => empty_like (un a) logits) <$> seq first n.

(** The list a rank passes to the gather: one buffer per member on the
    rank whose rank in the group is 0, nothing elsewhere. *)
Definition gather_list_of (env : RankEnv) (first : nat) (logits : Tensor)
  : list Tensor :=
  if decide (env_rank env = 0)
  then recv_buffers (env_uninit env) first (env_world_size env) logits
  else [].

(** A rank's state when it enters the gather. *)
Definition state_at_gather (env : RankEnv) (logits : Tensor) (st : RankState)
  : RankState :=
  let bufs := gather_list_of env (allocs st) logits in
  mkState (rng st) (allocs st + length bufs)
    (trace st ++ replicate (length bufs) (EvAlloc logits)
       ++ [EvGather logits bufs (env_src_rank env) (env_group env)]).

(** What a rank does with the list [recv] it holds after the gather. *)
Definition finish (env : RankEnv) (logits : Tensor) (recv : list Tensor)
    (top_p : Q) (top_k : Z) (temperature : Q) (st : RankState)
  : result Tensor * RankState :=
  if decide (env_rank env = 0) then
    match cat_last recv with
    | Raise e => (Raise e, st)
    | Ok full =>
        match env_sampler env (rng st) full top_p top_k temperature with
        | Ok (tok, rng') =>
            (Ok tok,
             mkState rng' (allocs st)
               (trace st ++ [EvSample full top_p top_k temperature]))
        | Raise e => (Raise e, log (EvSample full top_p top_k temperature) st)
        end
    end
  else
    match select_last_0 logits with
    | Raise e => (Raise e, st)
    | Ok slice =>
        (Ok (empty_like (env_uninit env (allocs st)) slice),
         mkState (rng st) (S (allocs st)) (trace st ++ [EvAlloc slice]))
    end.

(** The calls the members of the group make to the gather. *)
Definition tps_calls (g : TPGroup) (smp : Sampler) (inputs : list RankInput)
  : list GatherCall :=
  imap (fun i inp =>
          mkCall (in_logits inp)
            (gather_list_of (rank_env g smp i inp) 0 (in_logits inp))
            (src_rank g) (members g)) inputs.

(** A member's state when it enters the gather. *)
Definition entry_state (g : TPGroup) (smp : Sampler) (i : nat)
    (inp : RankInput) : RankState :=
  state_at_gather (rank_env g smp i inp) (in_logits inp) (init_state inp).

(** The designated destination is the member whose rank in the group is 0. *)
Definition dst_is_first (g : TPGroup) : Prop :=
  members g !! 0 = Some (src_rank g).

(** Every member's shard has the sizes and element type of [logits0]. *)
Definition shards_like (logits0 : Tensor) (inputs : list RankInput) : Prop :=
  Forall (fun inp => shape (in_logits inp) = shape logits0
                     /\ dtype (in_logits inp) = dtype logits0) inputs.

Definition rmap {A B : Type} (f : A -> B) (r : result A) : result B :=
  match r with
  | Ok a => Ok (f a)
  | Raise e => Raise e
  end.

(** The reference the gather is compared with: the sampling primitive
    applied to the full-vocabulary logits, no group involved. *)
Definition direct_sample (smp : Sampler) (seed : RngState) (full : Tensor)
    (top_p : Q) (top_k : Z) (temperature : Q) : result Tensor :=
  rmap fst (smp seed full top_p top_k temperature).

(** A partition of the vocabulary dimension of [full] into contiguous,
    non-overlapping shards of the given widths, the first starting at
    [start]. *)
Fixpoint shard_from (full : Tensor) (start : nat) (widths : list nat)
  : result (list Tensor) :=
  match widths with
  | [] => Ok []
  | w :: widths' =>
      rbind (narrow_last full start w) (fun t =>
      rbind (shard_from full (start + w) widths') (fun ts =>
      Ok (t :: ts)))
  end.

(** Number of events of a kind in a trace. *)
Fixpoint count_events (f : Event -> bool) (l : list Event) : nat :=
  match l with
  | [] => 0
  | e :: l' => (if f e then 1 else 0) + count_events f l'
  end.

(** The placeholder a member makes from its shard: uninitialised storage
    shaped like [logits[..., 0]]. *)
Definition placeholder_of (inp : RankInput) : result Tensor :=
  rmap (empty_like (in_uninit inp 0)) (select_last_0 (in_logits inp)).

(** The contract of the sampling primitive the specification gives: one
    token per batch element, an integer id. *)
Definition one_token_per_row (smp : Sampler) : Prop :=
  forall seed logits top_p top_k temperature tok seed',
    smp seed logits top_p top_k temperature = Ok (tok, seed') ->
    exists lead n,
      shape logits = lead ++ [n] /\ shape tok = lead /\ dtype tok = Int64.

(** Every member's shard has sizes [lead ++ [v]] and element type [dt]. *)
Definition shards_uniform (lead : list nat) (v : nat) (dt : DType)
    (inputs : list RankInput) : Prop :=
  uniform lead v dt (in_logits <$> inputs).

(** Number of columns [get_batch_pipe] keeps of the [n - 1] columns left
    after the shift: all of them, unless legacy curriculum learning is on
    with a sequence length below [n - 1], which cuts them to that length. *)
Definition kept_columns (args : Args) (n : nat) : nat :=
  if curriculum_learning_legacy args
     && bool_decide (curriculum_seqlen args < Z.of_nat (n - 1))%Z
  then clip_bound (n - 1) (curriculum_seqlen args)
  else n - 1.

(** The masks collaborator answers on two-dimensional tokens, with a loss
    mask and position ids that have a dimension 1 to slice. *)
Definition masks_shaped
    (gl : Tensor -> Z -> bool -> bool -> bool -> result (Tensor * Tensor * Tensor))
    (eod : Z) (args : Args) : Prop :=
  forall toks b n, shape toks = [b; n] ->
    exists am lm pid,
      gl toks eod (reset_position_ids args) (reset_attention_mask args)
        (eod_mask_loss args) = Ok (am, lm, pid)
      /\ 2 <= dim lm /\ 2 <= dim pid.

(** The batch dictionary as [get_batch_pipe] leaves it. *)
Definition squeezed_batch (batch : gmap string Tensor) (text : Tensor)
  : gmap string Tensor :=
  if decide (dim text = 3) then <["text"%string := squeeze_1 text]> batch
  else batch.

(** * Concrete groups and batches *)

Module Examples.

(** Fresh storage holding [-1] everywhere. *)
Definition stale : nat -> nat -> Z := fun _ _ => (-1)%Z.

(** Two members, global ranks 4 and 5, destination the first. *)
Definition group2 : TPGroup := mkGroup [4; 5] 4.
(** A group of one member. *)
Definition group1 : TPGroup := mkGroup [4] 4.

(** Logits for a batch of two over a vocabulary of four, and its two
    shards of width two. *)
Definition full24 : Tensor :=
  mkTensor [2; 4] Float32 [1; 5; 9; 3; 7; 2; 0; 8]%Z.
Definition shard0 : Tensor := mkTensor [2; 2] Float32 [1; 5; 7; 2]%Z.
Definition shard1 : Tensor := mkTensor [2; 2] Float32 [9; 3; 0; 8]%Z.
Definition member0 : RankInput := mkInput shard0 11%Z stale.
Definition member1 : RankInput := mkInput shard1 22%Z stale.
Definition inputs2 : list RankInput := [member0; member1].

Definition single : RankInput := mkInput full24 11%Z stale.

(** Logits for a batch of one over a vocabulary of three, split into a
    shard of width two and a shard of width one. *)
Definition full13 : Tensor := mkTensor [1; 3] Float32 [1; 2; 9]%Z.
Definition wide_member : RankInput :=
  mkInput (mkTensor [1; 2] Float32 [1; 2]%Z) 11%Z stale.
Definition thin_member : RankInput :=
  mkInput (mkTensor [1; 1] Float32 [9]%Z) 22%Z stale.
Definition inputs_uneven : list RankInput := [wide_member; thin_member].

(** A batch of two rows of four token ids, with the singleton dimension
    the data loader adds. *)
Definition text3 : Tensor :=
  mkTensor [2; 1; 4] Int64 [10; 11; 12; 13; 20; 21; 22; 23]%Z.
Definition text2 : Tensor :=
  mkTensor [2; 4] Int64 [10; 11; 12; 13; 20; 21; 22; 23]%Z.
Definition batch : gmap string Tensor := {[ "text"%string := text3 ]}.
Definition batch_squeezed : gmap string Tensor :=
  {[ "text"%string := text2 ]}.

Definition args_plain : Batch.Args := Batch.mkArgs false false false false 0.
Definition args_curriculum : Batch.Args :=
  Batch.mkArgs false false false true 2.

End Examples.

(** * The DeepSpeed configuration dictionary *)

Module DsConfig.

(** Exceptions of the driver's set-up code. *)
Inductive PyExn : Type :=
  | TypeError
  | AttributeError
  | AssertionError
  | FileNotFoundError
  | JSONDecodeError.

Inductive outcome (A : Type) : Type :=
  | Return (a : A)
  | Except (e : PyExn).
Arguments Return {A} a.
Arguments Except {A} e.

(** A JSON value as [json.load] returns it; an object is a Python [dict],
    its keys in insertion order. *)
#[warnings="-register-all"]
Inductive Json : Type :=
  | JNull
  | JBool (b : bool)
  | JNum (q : Q)
  | JStr (s : string)
  | JArr (items : list Json)
  | JObj (fields : list (string * Json)).

(** [d[key]] on a [dict], for reading. *)
Fixpoint dict_get (key : string) (d : list (string * Json)) : option Json :=
  match d with
  | [] => None
  | (k, v) :: d' => if decide (k = key) then Some v else dict_get key d'
  end.

(** [d[key] = value] on a [dict]: an existing key keeps its place and gets
    the new value, a new key goes to the end. *)
Fixpoint dict_set (key : string) (value : Json) (d : list (string * Json))
  : list (string * Json) :=
  match d with
  | [] => [(key, value)]
  | (k, v) :: d' =>
      if decide (k = key) then (key, value) :: d'
      else (k, v) :: dict_set key value d'
  end.

(** [{"load_universal": True}] *)
Definition load_universal : Json :=
  JObj [("load_universal"%string, JBool true)].

(** What a variable or attribute holds: [None], a string, or a reference
    to an object of the heap. *)
Inductive PyVal : Type :=
  | PyNone
  | PyStr (s : string)
  | PyRef (loc : nat).

(** The fields of [get_args()] the function reads and writes. *)
Record Args : Type := mkArgs {
  deepspeed_config : PyVal;
  universal_checkpoint : bool
}.

(** The objects alive, by location, and the global arguments.  A [dict]
    reached through two references is one object: a store into it is seen
    through both. *)
Record World : Type := mkWorld {
  heap : list Json;
  args : Args
}.

(** [isinstance(v, dict)]: the location of the [dict] when it is one. *)
Definition as_dict (h : list Json) (v : PyVal) : option nat :=
  match v with
  | PyRef l => match h !! l with Some (JObj _) => Some l | _ => None end
  | _ => None
  end.

(** [obj[key] = value] on the object at [l]: a store into a [dict]; a
    type error on a list, whose indices are integers, and on a value that
    has no item assignment. *)
Definition setitem (h : list Json) (l : nat) (key : string) (value : Json)
  : outcome (list Json) :=
  match h !! l with
  | Some (JObj fields) => Return (<[l := JObj (dict_set key value fields)]> h)
  | _ => Except TypeError
  end.

Section CreateDsConfigDict.

(** [open(path, 'r', encoding='utf-8')] followed by [json.load]: the file
    system and the JSON parser are not part of this file. *)
Variable open_json : string -> outcome Json.

(** [with open(v, ...) as config_file: json.load(config_file)]: only a
    string names a file; the loaded value is a new object. *)
Definition load_config (h : list Json) (v : PyVal)
  : outcome (nat * list Json) :=
  match v with
  | PyStr path =>
      match open_json path with
      | Return j => Return (length h, h ++ [j])
      | Except e => Except e
      end
  | PyNone | PyRef _ => Except TypeError
  end.

(** [_create_ds_config_dict], lines 159-173: the reference it returns, or
    the exception it raises, and the world it leaves. *)
Definition _create_ds_config_dict (w : World) : outcome nat * World :=
  let a := args w in
  match
    (match as_dict (heap w) (deepspeed_config a) with
     | Some l => Return (l, heap w)
     | None => load_config (heap w) (deepspeed_config a)
     end)
  with
  | Except e => (Except e, w)
  | Return (ds_config_dict, h) =>
      match
        (if universal_checkpoint a
         then setitem h ds_config_dict "checkpoint" load_universal
         else Return h)
      with
      | Except e => (Except e, mkWorld h a)
      | Return h' =>
          (Return ds_config_dict,
           mkWorld h' (mkArgs PyNone (universal_checkpoint a)))
      end
  end.

End CreateDsConfigDict.

(** The [dict] a reference denotes. *)
Definition deref_dict (h : list Json) (l : nat)
  : option (list (string * Json)) :=
  match h !! l with
  | Some (JObj fields) => Some fields
  | _ => None
  end.

(** Where the configuration comes from: the [dict] the arguments hold, or
    the object found in the file they name. *)
Definition configured_as (open_json : string -> outcome Json) (w : World)
    (fields : list (string * Json)) : Prop :=
  match deepspeed_config (args w) with
  | PyRef l => heap w !! l = Some (JObj fields)
  | PyStr path => open_json path = Return (JObj fields)
  | PyNone => False
  end.

End DsConfig.

(** * Building the model *)

Module Provider.

Import DsConfig.

(** The boolean attention mask [model_provider] stores in the arguments:
    its sizes and the rows of its last two dimensions. *)
Record Mask : Type := mkMask {
  mask_shape : list nat;
  mask_rows : list (list bool)
}.

(** [torch.ones((1, n, m))], as the rows of its one matrix. *)
Definition ones (n m : nat) : list (list Q) := replicate n (replicate m 1%Q).

(** [torch.tril]: the entries above the diagonal become zero. *)
Definition tril (a : list (list Q)) : list (list Q) :=
  imap (fun r row => imap (fun c x => if decide (c <= r) then x else 0%Q) row) a.

(** [a < x], element by element. *)
Definition lt_scalar (a : list (list Q)) (x : Q) : list (list bool) :=
  (fun row : list Q => (fun y => negb (Qle_bool x y)) <$> row) <$> a.

(** [.half()] and [.bfloat16()] of a boolean tensor: [True] becomes 1 and
    [False] 0, both exact in either format. *)
Definition to_float (a : list (list bool)) : list (list Q) :=
  (fun row : list bool => (fun b : bool => if b then 1%Q else 0%Q) <$> row)
    <$> a.

(** [.to(torch.bool)] of a floating-point tensor: non-zero is [True]. *)
Definition float_to_bool (a : list (list Q)) : list (list bool) :=
  (fun row : list Q => (fun y => negb (Qeq_bool y 0)) <$> row) <$> a.

(** The mask's entry for query position [r] and key position [c]. *)
Definition mask_at (m : Mask) (r c : nat) : option bool :=
  match mask_rows m !! r with
  | Some row => row !! c
  | None => None
  end.

(** The partial application [partial(tensor_parallel_sample,
    temperature=..., top_k=..., top_p=...)]. *)
Record SampleFn : Type := mkSampleFn {
  sf_temperature : Q;
  sf_top_k : Z;
  sf_top_p : Q
}.

(** Calling the partial application on logits. *)
Definition call_sample_fn (f : SampleFn) (logits : Tensor) : Prog Tensor :=
  tensor_parallel_sample logits (sf_top_p f) (sf_top_k f) (sf_temperature f).

(** The arguments [model_provider] and [get_model] read. *)
Record Flags : Type := mkFlags {
  deepspeed : bool;
  no_pipeline_parallel : bool;
  zero_stage : Z;
  remote_device : string;
  temperature : Q;
  top_k : Z;
  top_p : Q;
  seq_length : nat;
  fp16 : bool;
  bf16 : bool;
  use_rotary_position_embeddings : bool;
  transformer_impl : string
}.

(** What the set-up code is seen to do to its collaborators. *)
Inductive Event : Type :=
  | EvZeroInit (remote : option string) (enabled : bool)
  | EvBarrier
  | EvUpdateRotary (seq : nat)
  | EvPrintParameters (tensor_rank pipeline_rank count : nat).

Section Models.

(** [megatron.core.enums.ModelType], the configuration object made by
    [core_transformer_config_from_args] and the parameters of a module
    belong to the framework. *)
Context {ModelType Config Param : Type}.

(** How a model object was made: the class and the arguments of its
    constructor. *)
Inductive Built : Type :=
  | GPTModelPipe (config : Config) (num_tokentypes : nat)
                 (parallel_output : bool) (sample_fn : SampleFn)
  | GPTModel (config : Config) (num_tokentypes : nat) (parallel_output : bool)
             (pre_process post_process : bool)
  | OtherModule (class_name : string).

(** [type(m) == GPTModel] *)
Definition is_GPTModel (b : Built) : bool :=
  match b with GPTModel _ _ _ _ _ => true | _ => false end.

(** A model object: how it was built, the attributes the set-up code
    gives it, and its parameters. *)
Record Module : Type := mkModule {
  built : Built;
  model_type : option ModelType;
  megatron_batch_fn_is_get_batch_pipe : bool;
  parameters : list Param
}.

(** The global arguments: the flags read, and the attributes written. *)
Record Args : Type := mkArgs {
  flags : Flags;
  attn_mask : option Mask;
  args_model_type : option ModelType;
  allow_transformer_engine : option bool
}.

(** What a model provider may return. *)
Inductive Provided : Type :=
  | One (m : Module)
  | Many (ms : list Module).

Variable core_transformer_config_from_args : Flags -> Config.
(** The parameters a constructor creates. *)
Variable parameters_of : Built -> list Param.

(** The mask [model_provider] precomputes, lines 130-142. *)
Definition precomputed_attn_mask (f : Flags) : Mask :=
  let attention_mask := tril (ones (seq_length f) (seq_length f)) in
  let attention_mask := lt_scalar attention_mask (1 # 2) in
  let rows :=
    if fp16 f then float_to_bool (to_float attention_mask)
    else if bf16 f then float_to_bool (to_float attention_mask)
    else attention_mask in
  mkMask [1; 1; seq_length f; seq_length f] rows.

(** [model_provider], lines 100-157.  The messages it prints and the
    memory reports are not modelled. *)
Definition model_provider (pre_process post_process : bool) (a : Args)
  : Module * Args * list Event :=
  let f := flags a in
  let config := core_transformer_config_from_args f in
  let zero_init :=
    EvZeroInit
      (if decide (remote_device f = "none"%string) then None
       else Some (remote_device f))
      (bool_decide (zero_stage f = 3%Z)) in
  if deepspeed f && negb (no_pipeline_parallel f) then
    let b :=
      GPTModelPipe config 0 true
        (mkSampleFn (temperature f) (top_k f) (top_p f)) in
    let model := mkModule b None true (parameters_of b) in
    let a :=
      mkArgs f (Some (precomputed_attn_mask f)) (args_model_type a)
        (allow_transformer_engine a) in
    (model, a,
     [zero_init; EvBarrier]
       ++ (if use_rotary_position_embeddings f
           then [EvUpdateRotary (seq_length f)] else []))
  else
    let b := GPTModel config 0 true pre_process post_process in
    (mkModule b None false (parameters_of b), a, [zero_init]).

(** [tensor_parallel.set_defaults_if_not_set_tensor_model_parallel_attributes]
    and what the parameter count reads of a parameter. *)
Variable set_defaults : Param -> Param.
Variable has_ds_id : Param -> bool.
Variable ds_numel : Param -> nat.
Variable nelement : Param -> nat.
(** The ranks [mpu] reports. *)
Variable data_parallel_rank tensor_rank pipeline_rank : nat.

(** [sum([p.ds_numel if hasattr(p, 'ds_id') else p.nelement() ...])] over
    the modules. *)
Definition count_parameters (ms : list Module) : nat :=
  sum_list
    ((fun m =>
        sum_list ((fun p => if has_ds_id p then ds_numel p else nelement p)
                    <$> parameters m)) <$> ms).

(** [get_model], lines 263-298. *)
Definition get_model
    (model_provider_func : Args -> outcome Provided * Args * list Event)
    (mt : ModelType) (wrap_with_ddp : bool) (a : Args)
  : outcome (list Module) * Args * list Event :=
  let a := mkArgs (flags a) (attn_mask a) (Some mt)
             (allow_transformer_engine a) in
  match model_provider_func a with
  | (Except e, a, ev) => (Except e, a, ev)
  | (Return (Many _), a, ev) => (Except AttributeError, a, ev)
  | (Return (One m), a, ev) =>
      let model :=
        [mkModule (built m) (Some mt)
           (megatron_batch_fn_is_get_batch_pipe m) (parameters m)] in
      let allow := forallb (fun m => is_GPTModel (built m)) model in
      let a := mkArgs (flags a) (attn_mask a) (args_model_type a)
                 (Some allow) in
      if allow || bool_decide (transformer_impl (flags a) = "local"%string)
      then
        let model :=
          (fun m => mkModule (built m) (model_type m)
                      (megatron_batch_fn_is_get_batch_pipe m)
                      (set_defaults <$> parameters m)) <$> model in
        (Return model, a,
         ev ++ (if decide (data_parallel_rank = 0)
                then [EvPrintParameters tensor_rank pipeline_rank
                        (count_parameters model)]
                else []))
      else (Except AssertionError, a, ev)
  end.

(** [model_provider] as [get_model] calls it: with no arguments, so with
    [pre_process] and [post_process] at their defaults. *)
Definition provide_default (a : Args)
  : outcome Provided * Args * list Event :=
  let '(m, a, ev) := model_provider true true a in (Return (One m), a, ev).

End Models.

End Provider.

(** * Further concrete inputs *)

Module MoreExamples.

Import Examples.

(** Fresh storage holding [7] everywhere. *)
Definition stale7 : nat -> nat -> Z := fun _ _ => 7%Z.

(** The shards of [inputs2] with other storage contents and another
    generator on the second member. *)
Definition inputs2_other : list RankInput :=
  [mkInput shard0 11%Z stale7; mkInput shard1 33%Z stale7].

(** Two members holding logits without dimensions. *)
Definition scalar0 : RankInput := mkInput (mkTensor [] Float32 [3%Z]) 11%Z stale.
Definition scalar1 : RankInput := mkInput (mkTensor [] Float32 [4%Z]) 22%Z stale.
Definition inputs_scalar : list RankInput := [scalar0; scalar1].

(** Two members holding shards with no vocabulary column. *)
Definition hollow0 : RankInput := mkInput (mkTensor [2; 0] Float32 []) 11%Z stale.
Definition hollow1 : RankInput := mkInput (mkTensor [2; 0] Float32 []) 22%Z stale.
Definition inputs_hollow : list RankInput := [hollow0; hollow1].

(** A batch whose text has one dimension only. *)
Definition text1 : Tensor := mkTensor [4] Int64 [10; 11; 12; 13]%Z.
Definition batch_flat : gmap string Tensor := {[ "text"%string := text1 ]}.


(** A configuration with a batch size and a checkpoint section. *)
Definition ds_fields : list (string * DsConfig.Json) :=
  [("train_batch_size"%string, DsConfig.JNum 8);
   ("checkpoint"%string,
    DsConfig.JObj [("tag_validation"%string, DsConfig.JStr "Warn")])].

(** A file system with that configuration in [ds.json] and a JSON list
    in [list.json]. *)
Definition files (path : string) : DsConfig.outcome DsConfig.Json :=
  if decide (path = "ds.json"%string)
  then DsConfig.Return (DsConfig.JObj ds_fields)
  else if decide (path = "list.json"%string)
  then DsConfig.Return (DsConfig.JArr [])
  else DsConfig.Except DsConfig.FileNotFoundError.

Definition world_path : DsConfig.World :=
  DsConfig.mkWorld [] (DsConfig.mkArgs (DsConfig.PyStr "ds.json") true).
Definition world_dict : DsConfig.World :=
  DsConfig.mkWorld [DsConfig.JNull; DsConfig.JObj ds_fields]
    (DsConfig.mkArgs (DsConfig.PyRef 1) true).
Definition world_missing : DsConfig.World :=
  DsConfig.mkWorld [] (DsConfig.mkArgs (DsConfig.PyStr "nowhere.json") true).
Definition world_list : DsConfig.World :=
  DsConfig.mkWorld [] (DsConfig.mkArgs (DsConfig.PyStr "list.json") true).

(** Arguments asking for DeepSpeed pipeline parallelism in half
    precision, with sequences of three tokens. *)
Definition flags_pipe : Provider.Flags :=
  Provider.mkFlags true false 1 "none" 1 0 0 3 true false false "local".
Definition args_pipe : @Provider.Args unit :=
  Provider.mkArgs flags_pipe None None None.

(** A provider that returns no model at all, in a list. *)
Definition provide_none (a : @Provider.Args unit)
  : DsConfig.outcome (@Provider.Provided unit unit nat)
    * @Provider.Args unit * list Provider.Event :=
  (DsConfig.Return (Provider.Many []), a, []).

End MoreExamples.

(** * Properties *)

(** ** Shapes and row-major storage *)

Lemma split_last_snoc (lead : list nat) (n : nat) :
  split_last (lead ++ [n]) = Some (lead, n).
Proof.
  unfold split_last. by rewrite reverse_snoc, reverse_involutive.
Qed.

Lemma split_last_Some (s lead : list nat) (n : nat) :
  split_last s = Some (lead, n) -> s = lead ++ [n].
Proof.
  unfold split_last. intros H.
  destruct (reverse s) as [|m r] eqn:E; [done|]. simplify_eq.
  rewrite <- (reverse_involutive s), E. by rewrite reverse_cons.
Qed.

Lemma split_last_None (s : list nat) : split_last s = None -> s = [].
Proof.
  unfold split_last. intros H.
  destruct (reverse s) as [|m r] eqn:E; [|done].
  by rewrite <- (reverse_involutive s), E.
Qed.

Lemma numel_snoc (lead : list nat) (n : nat) :
  numel (lead ++ [n]) = numel lead * n.
Proof.
  unfold numel. induction lead as [|a lead IH]; simpl; [lia|].
  rewrite IH. lia.
Qed.

Lemma last_size_snoc (lead : list nat) (n : nat) (dt : DType) (d : list Z) :
  last_size (mkTensor (lead ++ [n]) dt d) = n.
Proof. unfold last_size. simpl. by rewrite split_last_snoc. Qed.

(** Consecutive chunks of [v] elements, [w] of them from chunk [a] on, are
    the next [w * v] elements. *)
Lemma take_chunks (v : nat) (l : list Z) (w a : nat) :
  (i ← seq a w; take v (drop (i * v) l)) = take (w * v) (drop (a * v) l).
Proof.
  revert a. induction w as [|w IH]; intros a; simpl; [done|].
  rewrite IH. rewrite <- (take_take_drop (drop (a * v) l) v (w * v)).
  rewrite drop_drop. do 3 f_equal. lia.
Qed.

(** Cutting storage into its rows and putting them back. *)
Lemma rows_rebuild (n r : nat) (d : list Z) :
  length d = r * n -> (i ← seq 0 r; row n i d) = d.
Proof.
  intros H. unfold row. rewrite take_chunks. simpl.
  rewrite drop_0. apply take_ge. lia.
Qed.

Lemma length_bind_const {A B : Type} (f : A -> list B) (v : nat) (l : list A) :
  (forall i, i ∈ l -> length (f i) = v) ->
  length (i ← l; f i) = length l * v.
Proof.
  induction l as [|a l IH]; intros H; [done|].
  rewrite bind_cons, length_app, IH.
  - rewrite H by left. simpl. lia.
  - intros i Hi. apply H. by right.
Qed.

(** The [r]-th chunk of a concatenation of chunks of equal length. *)
Lemma row_of_chunks (f : nat -> list Z) (v a R r : nat) :
  (forall i, a <= i < a + R -> length (f i) = v) ->
  r < R ->
  row v r (i ← seq a R; f i) = f (a + r).
Proof.
  revert a r. induction R as [|R IH]; intros a r Hlen Hr; [lia|].
  unfold row in *. simpl.
  destruct r as [|r].
  - simpl. rewrite drop_0, Nat.add_0_r.
    rewrite take_app_length'; [done|]. symmetry. apply Hlen. lia.
  - replace (S r * v) with (length (f a) + r * v)
      by (rewrite (Hlen a); lia).
    rewrite <- drop_drop, drop_app_length.
    rewrite IH; [f_equal; lia| |lia].
    intros i Hi. apply Hlen. lia.
Qed.

Lemma lookup_bind_chunks {A : Type} (f : A -> list Z) (v : nat) (l : list A)
    (i c : nat) (x : A) :
  Forall (fun y => length (f y) = v) l ->
  l !! i = Some x -> c < v ->
  (y ← l; f y) !! (i * v + c) = f x !! c.
Proof.
  revert i. induction l as [|a l IH]; intros i Hall Hi Hc; [done|].
  apply Forall_cons in Hall as [Ha Hall]. rewrite bind_cons.
  destruct i as [|i]; simpl in *.
  - simplify_eq. apply lookup_app_l. lia.
  - rewrite lookup_app_r by lia.
    replace (v + i * v + c - length (f a)) with (i * v + c) by lia.
    by apply IH.
Qed.

Lemma lookup_row (n r c : nat) (d : list Z) :
  c < n -> row n r d !! c = d !! (r * n + c).
Proof.
  intros Hc. unfold row. by rewrite lookup_take_lt, lookup_drop.
Qed.

Lemma length_row (n r R : nat) (d : list Z) :
  length d = R * n -> r < R -> length (row n r d) = n.
Proof.
  intros Hd Hr. unfold row. rewrite length_take, length_drop. nia.
Qed.

Lemma last_size_uniform (lead : list nat) (v : nat) (dt : DType)
    (ts : list Tensor) (t : Tensor) :
  uniform lead v dt ts -> t ∈ ts -> last_size t = v.
Proof.
  intros Hu Ht. pose proof (proj1 (Forall_forall _ _) Hu t Ht) as [Hs _].
  unfold last_size. by rewrite Hs, split_last_snoc.
Qed.

Lemma sum_last_size_uniform (lead : list nat) (v : nat) (dt : DType)
    (ts : list Tensor) :
  uniform lead v dt ts -> sum_list (last_size <$> ts) = length ts * v.
Proof.
  induction 1 as [|t l [Hs _] _ IH]; [done|].
  rewrite fmap_cons. simpl. rewrite IH. unfold last_size.
  by rewrite Hs, split_last_snoc.
Qed.

Lemma cat_last_uniform (lead : list nat) (v : nat) (dt : DType)
    (ts : list Tensor) :
  ts <> [] -> uniform lead v dt ts ->
  cat_last ts =
    Ok (mkTensor (lead ++ [length ts * v]) dt
          (r ← seq 0 (numel lead); t ← ts; row v r (data t))).
Proof.
  intros Hne Hu. destruct ts as [|t0 ts]; [done|]. unfold cat_last.
  pose proof Hu as Hu0. apply Forall_cons in Hu0 as [[Hs0 Hd0] _].
  rewrite Hs0, split_last_snoc.
  assert (forallb (has_lead lead) (t0 :: ts) = true) as ->.
  { apply forallb_forall. intros t Ht. apply list_elem_of_In in Ht.
    pose proof (proj1 (Forall_forall _ _) Hu t Ht) as [Hs _].
    unfold has_lead. rewrite Hs, split_last_snoc. by apply bool_decide_eq_true. }
  assert (forallb (fun t => bool_decide (dtype t = dtype t0)) (t0 :: ts) = true)
    as ->.
  { apply forallb_forall. intros t Ht. apply list_elem_of_In in Ht.
    pose proof (proj1 (Forall_forall _ _) Hu t Ht) as [_ Hd].
    apply bool_decide_eq_true. congruence. }
  simpl negb. cbv iota. f_equal. rewrite Hd0. f_equal.
  - do 2 f_equal. by apply (sum_last_size_uniform lead v dt).
  - apply list_bind_ext; [|done]. intros r.
    apply Forall_bind_ext. eapply Forall_impl; [exact Hu|].
    intros t [Hs _]. simpl. unfold last_size. by rewrite Hs, split_last_snoc.
Qed.

Lemma tensor_eta (t : Tensor) : mkTensor (shape t) (dtype t) (data t) = t.
Proof. by destruct t. Qed.

(** Concatenating a single tensor gives the tensor back. *)
Lemma cat_last_single (lead : list nat) (v : nat) (t : Tensor) :
  shape t = lead ++ [v] -> well_formed t -> cat_last [t] = Ok t.
Proof.
  intros Hs Hwf.
  rewrite (cat_last_uniform lead v (dtype t)); [|done|by repeat constructor].
  f_equal. rewrite <- (tensor_eta t) at 3. rewrite Hs. f_equal.
  - simpl. do 2 f_equal. lia.
  - transitivity (r ← seq 0 (numel lead); row v r (data t)).
    + apply list_bind_ext; [|done]. intros r. simpl. apply app_nil_r.
    + apply rows_rebuild. unfold well_formed in Hwf.
      by rewrite Hwf, Hs, numel_snoc.
Qed.

Lemma list_eq_fmap_seq {A : Type} (l : list A) (g : nat -> A) :
  (forall i x, l !! i = Some x -> x = g i) -> l = g <$> seq 0 (length l).
Proof.
  intros H. apply list_eq. intros i. rewrite list_lookup_fmap.
  destruct (l !! i) as [x|] eqn:E.
  - rewrite lookup_seq_lt by (by eapply lookup_lt_Some).
    simpl. f_equal. by apply H.
  - rewrite lookup_seq_ge; [done|]. by apply lookup_ge_None.
Qed.

Lemma narrow_last_ok (lead : list nat) (n : nat) (dt : DType) (d : list Z)
    (start len : nat) :
  start + len <= n ->
  narrow_last (mkTensor (lead ++ [n]) dt d) start len =
    Ok (mkTensor (lead ++ [len]) dt
          (r ← seq 0 (numel lead); take len (drop (r * n + start) d))).
Proof.
  intros H. unfold narrow_last. simpl. rewrite split_last_snoc.
  by rewrite decide_True.
Qed.

(** Slicing the last dimension into [w] consecutive slices of [v] elements
    and concatenating them in that order gives the tensor back. *)
Lemma cat_last_narrow (lead : list nat) (w v : nat) (dt : DType) (d : list Z)
    (shards : list Tensor) :
  0 < w -> length d = numel lead * (w * v) -> length shards = w ->
  (forall i t, shards !! i = Some t ->
     narrow_last (mkTensor (lead ++ [w * v]) dt d) (i * v) v = Ok t) ->
  cat_last shards = Ok (mkTensor (lead ++ [w * v]) dt d).
Proof.
  intros Hw Hd Hlen Hsh.
  set (g i := mkTensor (lead ++ [v]) dt
                (r ← seq 0 (numel lead); take v (drop (r * (w * v) + i * v) d))).
  assert (shards = g <$> seq 0 w) as ->.
  { rewrite <- Hlen. apply list_eq_fmap_seq. intros i t Hi.
    pose proof (lookup_lt_Some _ _ _ Hi) as Hlt.
    apply Hsh in Hi. rewrite narrow_last_ok in Hi by nia. by simplify_eq. }
  rewrite (cat_last_uniform lead v dt).
  - rewrite length_fmap, length_seq. do 2 f_equal.
    transitivity (r ← seq 0 (numel lead); row (w * v) r d);
      [|by apply rows_rebuild].
    apply Forall_bind_ext, Forall_forall. intros r Hr.
    apply elem_of_seq in Hr. rewrite list_fmap_bind.
    transitivity (i ← seq 0 w; take v (drop (i * v) (drop (r * (w * v)) d))).
    + apply Forall_bind_ext, Forall_forall. intros i Hi.
      apply elem_of_seq in Hi. simpl.
      rewrite (row_of_chunks _ v 0 (numel lead) r); [|intros j Hj|lia].
      * rewrite drop_drop. done.
      * rewrite length_take, length_drop.
        assert (S j * (w * v) <= numel lead * (w * v))
          by (apply Nat.mul_le_mono_r; lia).
        assert (S i * v <= w * v) by (apply Nat.mul_le_mono_r; lia).
        simpl in *. lia.
    + rewrite take_chunks. unfold row. simpl. by rewrite drop_0.
  - destruct w; [lia|done].
  - apply Forall_fmap, Forall_forall. by intros i _.
Qed.

(** Where the elements of the tensors end up in their concatenation: the
    slice of the [i]-th tensor occupies positions [i * v .. i * v + v - 1]
    of the last dimension. *)
Lemma cat_last_get (lead : list nat) (v : nat) (dt : DType) (ts : list Tensor)
    (full t : Tensor) (i r c : nat) :
  uniform lead v dt ts -> Forall well_formed ts ->
  cat_last ts = Ok full -> ts !! i = Some t ->
  r < numel lead -> c < v ->
  get full r (i * v + c) = get t r c.
Proof.
  intros Hu Hwf Hcat Hi Hr Hc.
  assert (ts <> []) as Hne by (by destruct ts).
  rewrite (cat_last_uniform lead v dt) in Hcat by done. simplify_eq.
  pose proof (lookup_lt_Some _ _ _ Hi) as Hlt.
  pose proof (proj1 (Forall_forall _ _) Hu t (list_elem_of_lookup_2 _ _ _ Hi))
    as [Hs _].
  assert (forall r', r' < numel lead ->
            Forall (fun y => length (row v r' (data y)) = v) ts) as Hrows.
  { intros r' Hr'. apply Forall_forall. intros y Hy.
    apply (length_row v r' (numel lead)); [|done].
    pose proof (proj1 (Forall_forall _ _) Hwf y Hy) as Hy1.
    pose proof (proj1 (Forall_forall _ _) Hu y Hy) as [Hy2 _].
    unfold well_formed in Hy1. by rewrite Hy1, Hy2, numel_snoc. }
  unfold get. rewrite last_size_snoc.
  assert (last_size t = v) as -> by (unfold last_size; by rewrite Hs, split_last_snoc).
  rewrite decide_True by nia. rewrite decide_True by done. simpl.
  rewrite (lookup_bind_chunks _ (length ts * v) _ r (i * v + c) r).
  - rewrite (lookup_bind_chunks _ v _ i c t); [|by apply Hrows|done|done].
    by apply lookup_row.
  - apply Forall_forall. intros r' Hr'. apply elem_of_seq in Hr'.
    apply length_bind_const. intros y Hy.
    by apply (proj1 (Forall_forall _ _) (Hrows r' ltac:(lia)) y).
  - by rewrite lookup_seq_lt.
  - nia.
Qed.

(** ** Running a rank's program *)

Lemma run_local_bind {A B : Type} (env : RankEnv) (p : Prog A)
    (f : A -> Prog B) (st : RankState) :
  run_local env (bind p f) st =
    match run_local env p st with
    | Finished (Ok a) st' => run_local env (f a) st'
    | Finished (Raise e) st' => Finished (Raise e) st'
    | AtGather t l d g k st' => AtGather t l d g (fun x => bind (k x) f) st'
    end.
Proof.
  revert st. induction p as [a|e|k IH|k IH|k IH|k IH|t k IH|t l d g k IH
                            |l q c temp k IH]; intros st; simpl; try done.
  destruct (env_sampler env (rng st) l q c temp) as [[tok rng']|e]; [|done].
  apply IH.
Qed.

Lemma run_local_repeat_alloc (env : RankEnv) (n : nat) (t : Tensor)
    (st : RankState) :
  run_local env (repeatM n (torch_empty_like t)) st =
    Finished (Ok (recv_buffers (env_uninit env) (allocs st) n t))
      (mkState (rng st) (allocs st + n)
         (trace st ++ replicate n (EvAlloc t))).
Proof.
  revert st. induction n as [|n IH]; intros st; simpl.
  - rewrite Nat.add_0_r, app_nil_r. by destruct st.
  - rewrite run_local_bind, IH. simpl.
    unfold recv_buffers. simpl. rewrite <- app_assoc. simpl.
    do 3 f_equal. lia.
Qed.

(** A rank's run of [tensor_parallel_sample]: it enters the gather with
    its shard, its list of buffers and the designated destination, and
    afterwards samples or makes the placeholder. *)
Lemma tensor_parallel_sample_local (env : RankEnv) (logits : Tensor)
    (top_p : Q) (top_k : Z) (temperature : Q) (st : RankState) :
  exists K,
    run_local env (tensor_parallel_sample logits top_p top_k temperature) st =
      AtGather logits (gather_list_of env (allocs st) logits)
        (env_src_rank env) (env_group env) K (state_at_gather env logits st)
    /\ forall recv st',
         settle (run_local env (K recv) st') =
           finish env logits recv top_p top_k temperature st'.
Proof.
  unfold tensor_parallel_sample, gather_list_of, state_at_gather, finish,
    gather_list_of. simpl.
  rewrite run_local_bind.
  destruct (decide (env_rank env = 0)) as [H0|H0].
  - rewrite run_local_repeat_alloc. simpl. eexists. split.
    + unfold log, recv_buffers. simpl.
      rewrite length_fmap, length_seq, <- app_assoc. reflexivity.
    + intros recv st'. simpl. rewrite run_local_bind.
      destruct (cat_last recv) as [full|e]; simpl; [|done].
      by destruct (env_sampler env (rng st') full top_p top_k temperature)
        as [[tok rng']|e].
  - simpl. eexists. split.
    + unfold log. simpl. rewrite Nat.add_0_r. reflexivity.
    + intros recv st'. simpl. rewrite run_local_bind.
      by destruct (select_last_0 logits) as [slice|e].
Qed.

(** ** The collective *)

Lemma zip_with_fill (bufs ts : list Tensor) :
  Forall2 (fun b t => fits b t = true) bufs ts -> zip_with fill bufs ts = ts.
Proof.
  induction 1 as [|b t bufs ts Hfit _ IH]; [done|]. simpl. rewrite IH.
  f_equal. unfold fits in Hfit. apply andb_true_iff in Hfit as [H1 H2].
  apply bool_decide_eq_true in H1, H2. unfold fill. rewrite H1, H2.
  apply tensor_eta.
Qed.

Section Collective.

Variables (calls : list GatherCall) (dst : nat) (group : list nat).
Hypothesis calls_nonempty : calls <> [].
Hypothesis calls_agree :
  Forall (fun c => gc_dst c = dst /\ gc_group c = group) calls.
Hypothesis everyone_calls : length group = length calls.

Lemma gather_collective_head :
  exists c0, c0 ∈ calls /\ gather_collective calls = gather_to c0 calls.
Proof.
  unfold gather_collective. destruct (head calls) as [c0|] eqn:E.
  - exists c0. split; [|done]. by apply head_Some_elem_of.
  - by apply head_None in E.
Qed.

Lemma gather_to_checks (c0 : GatherCall) :
  c0 ∈ calls ->
  gc_dst c0 = dst /\ gc_group c0 = group /\
  forallb (same_collective c0) calls = true.
Proof.
  intros H0.
  pose proof (proj1 (Forall_forall _ _) calls_agree c0 H0) as [? ?].
  split_and!; [done..|].
  apply forallb_forall. intros c Hc. apply list_elem_of_In in Hc.
  pose proof (proj1 (Forall_forall _ _) calls_agree c Hc) as [? ?].
  unfold same_collective. apply andb_true_iff.
  split; apply bool_decide_eq_true; congruence.
Qed.

(** The destination has its buffers filled with the members' tensors in
    rank order; the other members keep their lists. *)
Lemma gather_collective_ok (d : nat) (cd : GatherCall) :
  list_find (fun m => m = dst) group = Some (d, dst) ->
  calls !! d = Some cd ->
  Forall2 (fun b c => fits b (gc_tensor c) = true) (gc_list cd) calls ->
  gather_collective calls =
    Ok (imap (fun i c => if decide (i = d) then gc_tensor <$> calls
                         else gc_list c) calls).
Proof.
  intros Hfind Hd Hfit.
  destruct gather_collective_head as (c0 & H0 & ->).
  destruct (gather_to_checks c0 H0) as (Hdst & Hgrp & Hsame).
  unfold gather_to. rewrite Hsame, Hdst, Hgrp. simpl negb. cbv iota.
  rewrite bool_decide_eq_true_2 by done.
  simpl negb. cbv iota. rewrite Hfind, Hd.
  rewrite bool_decide_eq_true_2 by (by eapply Forall2_length).
  simpl negb. cbv iota.
  assert (forallb (fun bc => fits bc.1 (gc_tensor bc.2))
            (zip (gc_list cd) calls) = true) as ->.
  { clear -Hfit. induction Hfit as [|b c bs cs' H _ IH]; [done|].
    simpl. by rewrite H, IH. }
  simpl negb. cbv iota. do 2 f_equal. rewrite zip_with_fill; [done|].
  by apply Forall2_fmap_r.
Qed.



End Collective.

(** ** The group in lockstep *)

Lemma call_of_waiting {A : Type} (p : Paused A) (c : GatherCall) :
  call_of p = Some c -> waiting p = true.
Proof. by destruct p. Qed.

(** When every member reaches the gather, the group's step is the
    collective on their calls followed by every member's continuation. *)
Lemma run_group_lockstep {A : Type} (ranks : list (RankEnv * Prog A * RankState))
    (calls : list GatherCall) :
  Forall2 (fun r c => call_of (run_local r.1.1 r.1.2 r.2) = Some c)
    ranks calls ->
  run_group ranks =
    imap (fun i r => resume r.1.1 i (run_local r.1.1 r.1.2 r.2)
                       (gather_collective calls)) ranks.
Proof.
  intros H. unfold run_group.
  assert (forallb waiting ((fun r => run_local r.1.1 r.1.2 r.2) <$> ranks)
          = true) as ->.
  { clear -H. induction H as [|r c rs cs Hc _ IH]; [done|].
    rewrite fmap_cons. simpl. by rewrite (call_of_waiting _ c), IH. }
  assert (omap call_of ((fun r => run_local r.1.1 r.1.2 r.2) <$> ranks)
          = calls) as ->.
  { clear -H. induction H as [|r c rs cs Hc _ IH]; [done|].
    rewrite fmap_cons. simpl. rewrite Hc. f_equal. exact IH. }
  apply list_eq. intros i. rewrite !list_lookup_imap.
  rewrite lookup_zip_with, !list_lookup_fmap.
  by destruct (ranks !! i).
Qed.

(** All members enter the gather; what each returns is decided by the
    collective and by its own continuation. *)
Lemma run_tensor_parallel_sample_lockstep (g : TPGroup) (smp : Sampler)
    (inputs : list RankInput) (top_p : Q) (top_k : Z) (temperature : Q) :
  run_tensor_parallel_sample g smp inputs top_p top_k temperature =
    imap (fun i inp =>
            match gather_collective (tps_calls g smp inputs) with
            | Raise e => (Raise e, entry_state g smp i inp)
            | Ok lists =>
                match lists !! i with
                | None => (Raise Unmodelled, entry_state g smp i inp)
                | Some l =>
                    finish (rank_env g smp i inp) (in_logits inp) l
                      top_p top_k temperature (entry_state g smp i inp)
                end
            end) inputs.
Proof.
  unfold run_tensor_parallel_sample.
  rewrite (run_group_lockstep _ (tps_calls g smp inputs)).
  - apply list_eq. intros i. rewrite !list_lookup_imap.
    destruct (inputs !! i) as [inp|]; [|done].
    cbn [fmap option_fmap option_map fst snd]. f_equal.
    destruct (tensor_parallel_sample_local (rank_env g smp i inp)
                (in_logits inp) top_p top_k temperature (init_state inp))
      as (K & -> & HK).
    cbn [resume]. fold (entry_state g smp i inp). destruct (gather_collective _) as [lists|e]; [|done].
    destruct (lists !! i) as [l|]; [|done]. apply HK.
  - apply Forall2_same_length_lookup_2.
    + unfold tps_calls. by rewrite !length_imap.
    + intros i r c Hr Hc. unfold tps_calls in Hc.
      apply list_lookup_imap_Some in Hr as (inp & Hi & ->).
      apply list_lookup_imap_Some in Hc as (inp' & Hi' & ->).
      simplify_eq. cbn [fst snd].
      by destruct (tensor_parallel_sample_local (rank_env g smp i inp)
                     (in_logits inp) top_p top_k temperature (init_state inp))
        as (K & -> & _).
Qed.

Lemma list_find_first (group : list nat) (dst : nat) :
  group !! 0 = Some dst -> list_find (fun m => m = dst) group = Some (0, dst).
Proof.
  intros H. apply list_find_Some. split_and!; [done..|]. intros; lia.
Qed.

Lemma tps_calls_tensors (g : TPGroup) (smp : Sampler)
    (inputs : list RankInput) :
  gc_tensor <$> tps_calls g smp inputs = in_logits <$> inputs.
Proof.
  unfold tps_calls. apply list_eq. intros i.
  rewrite !list_lookup_fmap, list_lookup_imap. by destruct (inputs !! i).
Qed.

Lemma tps_calls_agree (g : TPGroup) (smp : Sampler) (inputs : list RankInput) :
  Forall (fun c => gc_dst c = src_rank g /\ gc_group c = members g)
    (tps_calls g smp inputs).
Proof.
  apply Forall_lookup. intros i c Hc. unfold tps_calls in Hc.
  by apply list_lookup_imap_Some in Hc as (inp & _ & ->).
Qed.

(** In a group whose destination is the member of rank 0 and whose shards
    agree in sizes and element type, the gather succeeds: the member of
    rank 0 continues with all shards in rank order, every other member
    with its empty list. *)
Lemma run_tensor_parallel_sample_configured (g : TPGroup) (smp : Sampler)
    (inputs : list RankInput) (inp0 : RankInput)
    (top_p : Q) (top_k : Z) (temperature : Q) :
  dst_is_first g ->
  length inputs = length (members g) ->
  inputs !! 0 = Some inp0 ->
  shards_like (in_logits inp0) inputs ->
  run_tensor_parallel_sample g smp inputs top_p top_k temperature =
    imap (fun i inp =>
            finish (rank_env g smp i inp) (in_logits inp)
              (if decide (i = 0) then in_logits <$> inputs else [])
              top_p top_k temperature (entry_state g smp i inp)) inputs.
Proof.
  intros Hdst Hlen H0 Hlike.
  rewrite run_tensor_parallel_sample_lockstep.
  rewrite (gather_collective_ok (tps_calls g smp inputs) (src_rank g)
             (members g) ltac:(unfold tps_calls; by destruct inputs)
             (tps_calls_agree g smp inputs)
             ltac:(unfold tps_calls; by rewrite length_imap)
             0 (mkCall (in_logits inp0)
                  (gather_list_of (rank_env g smp 0 inp0) 0 (in_logits inp0))
                  (src_rank g) (members g))).
  - apply imap_ext. intros i inp Hi. rewrite list_lookup_imap.
    rewrite tps_calls_tensors. unfold tps_calls.
    rewrite list_lookup_imap, Hi. simpl. unfold gather_list_of. simpl.
    by destruct (decide (i = 0)).
  - by apply list_find_first.
  - unfold tps_calls. by rewrite list_lookup_imap, H0.
  - simpl. unfold gather_list_of, recv_buffers. simpl.
    apply Forall2_same_length_lookup_2.
    + unfold tps_calls. by rewrite length_fmap, length_seq, length_imap.
    + intros i b c Hb Hc. unfold tps_calls in Hc.
      apply list_lookup_imap_Some in Hc as (inp & Hi & ->).
      apply list_lookup_fmap_Some in Hb as (a & -> & _).
      pose proof (proj1 (Forall_lookup _ _) Hlike i inp Hi) as [Hs Hd].
      unfold fits. simpl. rewrite Hs, Hd.
      by rewrite !bool_decide_eq_true_2.
Qed.

(** ** Sharding the vocabulary *)

Lemma shard_from_replicate (full : Tensor) (w v start : nat)
    (ts : list Tensor) :
  shard_from full start (replicate w v) = Ok ts ->
  length ts = w /\
  forall i t, ts !! i = Some t -> narrow_last full (start + i * v) v = Ok t.
Proof.
  revert start ts. induction w as [|w IH]; intros start ts H; simpl in H.
  - by simplify_eq.
  - destruct (narrow_last full start v) as [t0|] eqn:E0; [|done]. simpl in H.
    destruct (shard_from full (start + v) (replicate w v)) as [ts'|] eqn:E1;
      [|done].
    simpl in H. simplify_eq. apply IH in E1 as [Hlen Hts]. split.
    + simpl. by rewrite Hlen.
    + intros [|i] t Hi; simpl in Hi.
      * simplify_eq. by rewrite Nat.add_0_r.
      * apply Hts in Hi. rewrite <- Hi. f_equal. lia.
Qed.

(** ** The claims about [tensor_parallel_sample] *)

(** What the member of rank 0 returns in a configured group. *)
Lemma destination_outcome (g : TPGroup) (smp : Sampler)
    (inputs : list RankInput) (inp0 : RankInput) (full : Tensor)
    (top_p : Q) (top_k : Z) (temperature : Q) :
  dst_is_first g ->
  length inputs = length (members g) ->
  inputs !! 0 = Some inp0 ->
  shards_like (in_logits inp0) inputs ->
  cat_last (in_logits <$> inputs) = Ok full ->
  exists st,
    run_tensor_parallel_sample g smp inputs top_p top_k temperature !! 0 =
      Some (direct_sample smp (in_rng inp0) full top_p top_k temperature, st)
    /\ trace st =
         trace (entry_state g smp 0 inp0)
           ++ [EvSample full top_p top_k temperature].
Proof.
  intros Hdst Hlen H0 Hlike Hcat.
  rewrite (run_tensor_parallel_sample_configured g smp inputs inp0) by done.
  rewrite list_lookup_imap, H0. unfold finish, direct_sample. simpl.
  rewrite Hcat.
  destruct (smp (in_rng inp0) full top_p top_k temperature) as [[tok rng']|e];
    simpl; eauto.
Qed.

(** C1 (as amended): when the vocabulary is split into [w] contiguous
    shards of equal width [v] and the destination is the member of rank 0,
    the destination returns exactly what the sampling primitive returns
    on the unsharded logits for the same generator state. *)
Theorem tensor_parallel_sample_refines_direct_sample (g : TPGroup)
    (smp : Sampler) (lead : list nat) (w v : nat) (dt : DType) (d : list Z)
    (inputs : list RankInput) (inp0 : RankInput)
    (top_p : Q) (top_k : Z) (temperature : Q) :
  dst_is_first g ->
  length (members g) = w ->
  well_formed (mkTensor (lead ++ [w * v]) dt d) ->
  shard_from (mkTensor (lead ++ [w * v]) dt d) 0 (replicate w v)
    = Ok (in_logits <$> inputs) ->
  inputs !! 0 = Some inp0 ->
  fst <$> (run_tensor_parallel_sample g smp inputs top_p top_k temperature !! 0)
  = Some (direct_sample smp (in_rng inp0) (mkTensor (lead ++ [w * v]) dt d)
            top_p top_k temperature).
Proof.
  intros Hdst Hw Hwf Hsh H0.
  apply shard_from_replicate in Hsh as [Hlen Hsh].
  rewrite length_fmap in Hlen.
  assert (0 < w) as Hpos by (apply lookup_lt_Some in H0; lia).
  assert (forall i inp, inputs !! i = Some inp ->
            shape (in_logits inp) = lead ++ [v] /\ dtype (in_logits inp) = dt)
    as Hshape.
  { intros i inp Hi. pose proof (lookup_lt_Some _ _ _ Hi) as Hlt.
    specialize (Hsh i (in_logits inp)).
    rewrite list_lookup_fmap, Hi in Hsh. specialize (Hsh eq_refl).
    rewrite narrow_last_ok in Hsh by (simpl; nia).
    injection Hsh as <-. done. }
  destruct (Hshape 0 inp0 H0) as [Hs0 Hd0].
  destruct (destination_outcome g smp inputs inp0
              (mkTensor (lead ++ [w * v]) dt d) top_p top_k temperature)
    as (st & -> & _); try done.
  - congruence.
  - apply Forall_lookup. intros i inp Hi.
    destruct (Hshape i inp Hi) as [-> ->]. by rewrite Hs0, Hd0.
  - apply cat_last_narrow; [done| |by rewrite length_fmap|done].
    unfold well_formed in Hwf. simpl in Hwf. by rewrite Hwf, numel_snoc.
Qed.

Lemma count_events_app (f : Event -> bool) (l1 l2 : list Event) :
  count_events f (l1 ++ l2) = count_events f l1 + count_events f l2.
Proof. induction l1 as [|e l1 IH]; simpl; [done|]. rewrite IH. lia. Qed.

Lemma count_events_replicate (f : Event -> bool) (n : nat) (e : Event) :
  count_events f (replicate n e) = if f e then n else 0.
Proof.
  induction n as [|n IH]; simpl; [by destruct (f e)|].
  rewrite IH. by destruct (f e).
Qed.

(** Events of a member when it enters the gather: its allocations, then
    the gather. *)
Lemma entry_state_trace (g : TPGroup) (smp : Sampler) (i : nat)
    (inp : RankInput) :
  trace (entry_state g smp i inp) =
    replicate (if decide (i = 0) then length (members g) else 0)
      (EvAlloc (in_logits inp))
    ++ [EvGather (in_logits inp)
          (if decide (i = 0)
           then recv_buffers (in_uninit inp) 0 (length (members g))
                  (in_logits inp)
           else [])
          (src_rank g) (members g)].
Proof.
  unfold entry_state, state_at_gather, gather_list_of, recv_buffers. simpl.
  destruct (decide (i = 0)); simpl; [|done].
  by rewrite length_fmap, length_seq.
Qed.

Lemma entry_state_counts (g : TPGroup) (smp : Sampler) (i : nat)
    (inp : RankInput) :
  count_events is_sample (trace (entry_state g smp i inp)) = 0
  /\ count_events is_gather (trace (entry_state g smp i inp)) = 1
  /\ count_events is_alloc (trace (entry_state g smp i inp)) =
       (if decide (i = 0) then length (members g) else 0).
Proof.
  rewrite entry_state_trace, !count_events_app, !count_events_replicate.
  simpl. split_and!; lia.
Qed.

(** What a member of rank other than 0 returns in a configured group. *)
Lemma non_destination_outcome (g : TPGroup) (smp : Sampler)
    (inputs : list RankInput) (inp0 inp : RankInput) (i : nat)
    (top_p : Q) (top_k : Z) (temperature : Q) :
  dst_is_first g ->
  length inputs = length (members g) ->
  inputs !! 0 = Some inp0 ->
  shards_like (in_logits inp0) inputs ->
  inputs !! i = Some inp -> i <> 0 ->
  exists st,
    run_tensor_parallel_sample g smp inputs top_p top_k temperature !! i =
      Some (placeholder_of inp, st)
    /\ count_events is_sample (trace st) = 0
    /\ count_events is_gather (trace st) = 1.
Proof.
  intros Hdst Hlen H0 Hlike Hi Hne.
  rewrite (run_tensor_parallel_sample_configured g smp inputs inp0) by done.
  rewrite list_lookup_imap, Hi. cbn [fmap option_fmap option_map].
  destruct (entry_state_counts g smp i inp) as (Hs & Hg & _).
  assert (allocs (entry_state g smp i inp) = 0) as Ha.
  { unfold entry_state, state_at_gather, gather_list_of. simpl.
    by rewrite decide_False. }
  remember (entry_state g smp i inp) as st0 eqn:Est. clear Est.
  unfold finish, placeholder_of. simpl. rewrite decide_False by done.
  destruct (select_last_0 (in_logits inp)) as [slice|e]; simpl.
  - rewrite Ha. eexists. split; [reflexivity|]. simpl.
    rewrite !count_events_app, Hs, Hg. simpl. done.
  - eauto.
Qed.

Lemma shards_uniform_lookup (lead : list nat) (v : nat) (dt : DType)
    (inputs : list RankInput) (i : nat) (inp : RankInput) :
  shards_uniform lead v dt inputs -> inputs !! i = Some inp ->
  shape (in_logits inp) = lead ++ [v] /\ dtype (in_logits inp) = dt.
Proof.
  intros Hu Hi.
  apply (proj1 (Forall_lookup _ _) Hu i (in_logits inp)).
  by rewrite list_lookup_fmap, Hi.
Qed.

Lemma shards_uniform_like (lead : list nat) (v : nat) (dt : DType)
    (inputs : list RankInput) (inp0 : RankInput) :
  shards_uniform lead v dt inputs -> inputs !! 0 = Some inp0 ->
  shards_like (in_logits inp0) inputs.
Proof.
  intros Hu H0. apply Forall_lookup. intros i inp Hi.
  destruct (shards_uniform_lookup _ _ _ _ _ _ Hu Hi) as [-> ->].
  by destruct (shards_uniform_lookup _ _ _ _ _ _ Hu H0) as [-> ->].
Qed.

Lemma shards_uniform_cat (lead : list nat) (v : nat) (dt : DType)
    (inputs : list RankInput) (inp0 : RankInput) :
  shards_uniform lead v dt inputs -> inputs !! 0 = Some inp0 ->
  cat_last (in_logits <$> inputs) =
    Ok (mkTensor (lead ++ [length inputs * v]) dt
          (r ← seq 0 (numel lead);
           t ← in_logits <$> inputs; row v r (data t))).
Proof.
  intros Hu H0. rewrite (cat_last_uniform lead v dt); [|by destruct inputs|done].
  by rewrite length_fmap.
Qed.

Lemma select_last_0_shape (lead : list nat) (v : nat) (t : Tensor) :
  shape t = lead ++ [v] -> 0 < v ->
  exists slice,
    select_last_0 t = Ok slice /\ shape slice = lead /\ dtype slice = dtype t.
Proof.
  intros Hs Hv. unfold select_last_0. rewrite Hs, split_last_snoc.
  rewrite decide_False by lia. eauto.
Qed.

Lemma placeholder_of_shape (lead : list nat) (v : nat) (inp : RankInput) :
  shape (in_logits inp) = lead ++ [v] -> 0 < v ->
  exists ph,
    placeholder_of inp = Ok ph /\ shape ph = lead
    /\ dtype ph = dtype (in_logits inp).
Proof.
  intros Hs Hv. unfold placeholder_of.
  destruct (select_last_0_shape lead v _ Hs Hv) as (slice & -> & <- & <-).
  simpl. eauto.
Qed.

(** The token the member of rank 0 returns has the sizes of the shards
    without the vocabulary dimension, and is an integer id. *)
Lemma destination_token (g : TPGroup) (smp : Sampler)
    (inputs : list RankInput) (inp0 : RankInput) (lead : list nat) (v : nat)
    (dt : DType) (top_p : Q) (top_k : Z) (temperature : Q)
    (tok : Tensor) (st0 : RankState) :
  dst_is_first g ->
  length inputs = length (members g) ->
  inputs !! 0 = Some inp0 ->
  shards_uniform lead v dt inputs ->
  one_token_per_row smp ->
  run_tensor_parallel_sample g smp inputs top_p top_k temperature !! 0 =
    Some (Ok tok, st0) ->
  shape tok = lead /\ dtype tok = Int64.
Proof.
  intros Hdst Hlen H0 Hu Hsmp Hrun.
  destruct (destination_outcome g smp inputs inp0 _ top_p top_k temperature
              Hdst Hlen H0 (shards_uniform_like _ _ _ _ _ Hu H0)
              (shards_uniform_cat _ _ _ _ _ Hu H0)) as (st & Hout & _).
  rewrite Hout in Hrun. unfold direct_sample in Hrun.
  destruct (smp _ _ _ _ _) as [[tok' seed']|e] eqn:E; simpl in Hrun; [|done].
  simplify_eq. apply Hsmp in E as (lead' & n & Hs & Hst & Hdt).
  simpl in Hs. apply app_inj_tail in Hs as [-> _]. done.
Qed.

(** C2 (as amended): in a call across the group exactly one member, the
    one of rank 0, calls the sampling primitive; every other member returns
    a placeholder whose sizes match the sampled token's.  The placeholder
    has the element type of the logits shard, not the token's. *)
Theorem one_member_samples_others_return_placeholders (g : TPGroup)
    (smp : Sampler) (inputs : list RankInput) (inp0 : RankInput)
    (lead : list nat) (v : nat) (dt : DType)
    (top_p : Q) (top_k : Z) (temperature : Q) :
  dst_is_first g ->
  length inputs = length (members g) ->
  inputs !! 0 = Some inp0 ->
  shards_uniform lead v dt inputs -> 0 < v ->
  one_token_per_row smp ->
  forall i inp, inputs !! i = Some inp ->
    exists res st,
      run_tensor_parallel_sample g smp inputs top_p top_k temperature !! i
        = Some (res, st)
      /\ count_events is_sample (trace st) = (if decide (i = 0) then 1 else 0)
      /\ (i <> 0 ->
          exists ph,
            res = Ok ph /\ placeholder_of inp = Ok ph
            /\ shape ph = lead /\ dtype ph = dt
            /\ forall tok st0,
                 run_tensor_parallel_sample g smp inputs top_p top_k
                   temperature !! 0 = Some (Ok tok, st0) ->
                 shape tok = shape ph).
Proof.
  intros Hdst Hlen H0 Hu Hv Hsmp i inp Hi.
  pose proof (shards_uniform_like _ _ _ _ _ Hu H0) as Hlike.
  destruct (decide (i = 0)) as [->|Hne].
  - destruct (destination_outcome g smp inputs inp0 _ top_p top_k temperature
                Hdst Hlen H0 Hlike (shards_uniform_cat _ _ _ _ _ Hu H0))
      as (st & Hout & Htr).
    eexists _, st. split; [exact Hout|]. split; [|done].
    rewrite Htr, count_events_app.
    destruct (entry_state_counts g smp 0 inp0) as (-> & _). done.
  - destruct (non_destination_outcome g smp inputs inp0 inp i top_p top_k
                temperature Hdst Hlen H0 Hlike Hi Hne) as (st & Hout & Hs & _).
    eexists _, st. split; [exact Hout|]. split; [done|]. intros _.
    destruct (shards_uniform_lookup _ _ _ _ _ _ Hu Hi) as [Hshape Hdt].
    destruct (placeholder_of_shape lead v inp Hshape Hv)
      as (ph & Hph & Hsh & Hd).
    exists ph. split_and!; [done|done|done|congruence|].
    intros tok st0 Hrun.
    destruct (destination_token g smp inputs inp0 lead v dt top_p top_k
                temperature tok st0 Hdst Hlen H0 Hu Hsmp Hrun) as [-> _].
    done.
Qed.

(** C3: the member of rank 0 hands the sampling primitive, together with
    the caller's [top_p], [top_k] and [temperature], the concatenation of
    the gathered shards along the vocabulary dimension in ascending rank
    order: the shard of the member of rank [i] fills columns
    [i * v .. i * v + v - 1] of every row. *)
Theorem destination_samples_rank_ordered_concatenation (g : TPGroup)
    (smp : Sampler) (inputs : list RankInput) (inp0 : RankInput)
    (lead : list nat) (v : nat) (dt : DType)
    (top_p : Q) (top_k : Z) (temperature : Q) :
  dst_is_first g ->
  length inputs = length (members g) ->
  inputs !! 0 = Some inp0 ->
  shards_uniform lead v dt inputs ->
  Forall well_formed (in_logits <$> inputs) ->
  exists full st,
    cat_last (in_logits <$> inputs) = Ok full
    /\ shape full = lead ++ [length inputs * v]
    /\ (forall i inp r c,
          inputs !! i = Some inp -> r < numel lead -> c < v ->
          get full r (i * v + c) = get (in_logits inp) r c)
    /\ run_tensor_parallel_sample g smp inputs top_p top_k temperature !! 0
       = Some (direct_sample smp (in_rng inp0) full top_p top_k temperature,
               st)
    /\ trace st =
         replicate (length (members g)) (EvAlloc (in_logits inp0))
         ++ [EvGather (in_logits inp0)
               (recv_buffers (in_uninit inp0) 0 (length (members g))
                  (in_logits inp0))
               (src_rank g) (members g);
             EvSample full top_p top_k temperature].
Proof.
  intros Hdst Hlen H0 Hu Hwf.
  pose proof (shards_uniform_cat _ _ _ _ _ Hu H0) as Hcat.
  destruct (destination_outcome g smp inputs inp0 _ top_p top_k temperature
              Hdst Hlen H0 (shards_uniform_like _ _ _ _ _ Hu H0) Hcat)
    as (st & Hout & Htr).
  eexists _, st. split; [exact Hcat|]. split; [done|]. split; [|split].
  - intros i inp r c Hi Hr Hc.
    apply (cat_last_get lead v dt (in_logits <$> inputs)); try done.
    by rewrite list_lookup_fmap, Hi.
  - exact Hout.
  - rewrite Htr, entry_state_trace. rewrite decide_True by done.
    by rewrite <- app_assoc.
Qed.

(** C5: a member of rank other than 0 returns a placeholder whose sizes
    are those of its logits shard without the last (vocabulary) dimension,
    the sizes of the token the member of rank 0 returns. *)
Theorem placeholder_has_leading_shape (g : TPGroup) (smp : Sampler)
    (inputs : list RankInput) (inp0 inp : RankInput) (i : nat)
    (lead : list nat) (v : nat) (dt : DType)
    (top_p : Q) (top_k : Z) (temperature : Q) :
  dst_is_first g ->
  length inputs = length (members g) ->
  inputs !! 0 = Some inp0 ->
  shards_uniform lead v dt inputs -> 0 < v ->
  one_token_per_row smp ->
  inputs !! i = Some inp -> i <> 0 ->
  exists ph st,
    run_tensor_parallel_sample g smp inputs top_p top_k temperature !! i
      = Some (Ok ph, st)
    /\ placeholder_of inp = Ok ph
    /\ shape (in_logits inp) = shape ph ++ [v]
    /\ forall tok st0,
         run_tensor_parallel_sample g smp inputs top_p top_k temperature !! 0
           = Some (Ok tok, st0) ->
         shape ph = shape tok.
Proof.
  intros Hdst Hlen H0 Hu Hv Hsmp Hi Hne.
  destruct (non_destination_outcome g smp inputs inp0 inp i top_p top_k
              temperature Hdst Hlen H0 (shards_uniform_like _ _ _ _ _ Hu H0)
              Hi Hne) as (st & Hout & _).
  destruct (shards_uniform_lookup _ _ _ _ _ _ Hu Hi) as [Hshape Hdt].
  destruct (placeholder_of_shape lead v inp Hshape Hv) as (ph & Hph & Hsh & Hd).
  exists ph, st. rewrite Hout, Hph, Hsh. split_and!; [done..|].
  intros tok st0 Hrun.
  by destruct (destination_token g smp inputs inp0 lead v dt top_p top_k
                 temperature tok st0 Hdst Hlen H0 Hu Hsmp Hrun) as [-> _].
Qed.

(** C8: the placeholder of a member of rank other than 0 is uninitialised
    storage shaped like [logits[..., 0]]: it has the sizes of the logits
    shard without the vocabulary dimension and the element type of the
    shard, while the member of rank 0 returns what the sampling primitive
    returns on the concatenated shards, a token that is an integer id: the
    two results agree in sizes, and differ in element type whenever the
    logits are not themselves 64-bit integers. *)
Theorem placeholder_keeps_logits_dtype (g : TPGroup) (smp : Sampler)
    (inputs : list RankInput) (inp0 inp : RankInput) (i : nat)
    (lead : list nat) (v : nat) (dt : DType)
    (top_p : Q) (top_k : Z) (temperature : Q) :
  dst_is_first g ->
  length inputs = length (members g) ->
  inputs !! 0 = Some inp0 ->
  shards_uniform lead v dt inputs -> 0 < v ->
  one_token_per_row smp ->
  inputs !! i = Some inp -> i <> 0 ->
  exists ph st,
    run_tensor_parallel_sample g smp inputs top_p top_k temperature !! i
      = Some (Ok ph, st)
    /\ placeholder_of inp = Ok ph
    /\ shape ph = lead
    /\ shape (in_logits inp) = shape ph ++ [v]
    /\ dtype ph = dtype (in_logits inp)
    /\ (exists full st0,
          cat_last (in_logits <$> inputs) = Ok full
          /\ run_tensor_parallel_sample g smp inputs top_p top_k temperature
               !! 0
             = Some (direct_sample smp (in_rng inp0) full top_p top_k
                       temperature, st0))
    /\ forall tok st0,
         run_tensor_parallel_sample g smp inputs top_p top_k temperature !! 0
           = Some (Ok tok, st0) ->
         shape tok = lead /\ shape ph = shape tok /\ dtype tok = Int64
         /\ (dtype (in_logits inp) <> Int64 -> dtype ph <> dtype tok).
Proof.
  intros Hdst Hlen H0 Hu Hv Hsmp Hi Hne.
  pose proof (shards_uniform_like _ _ _ _ _ Hu H0) as Hlike.
  destruct (non_destination_outcome g smp inputs inp0 inp i top_p top_k
              temperature Hdst Hlen H0 Hlike Hi Hne) as (st & Hout & _).
  destruct (shards_uniform_lookup _ _ _ _ _ _ Hu Hi) as [Hshape Hdt].
  destruct (placeholder_of_shape lead v inp Hshape Hv) as (ph & Hph & Hsh & Hd).
  destruct (destination_outcome g smp inputs inp0 _ top_p top_k temperature
              Hdst Hlen H0 Hlike (shards_uniform_cat _ _ _ _ _ Hu H0))
    as (st0 & Hout0 & _).
  exists ph, st. rewrite Hout, Hph. split_and!; [done|done|done| |done| |].
  - by rewrite Hshape, Hsh.
  - eexists _, st0. split; [exact (shards_uniform_cat _ _ _ _ _ Hu H0)|].
    exact Hout0.
  - intros tok st1 Hrun.
    destruct (destination_token g smp inputs inp0 lead v dt top_p top_k
                temperature tok st1 Hdst Hlen H0 Hu Hsmp Hrun) as [Hts Htd].
    split_and!; [done|congruence|done|congruence].
Qed.

(** How a member enters the gather: addressed to the group's designated
    source rank, with one buffer per member, allocated beforehand and like
    its own shard, when its rank in the group is 0, and with no buffer
    otherwise. *)
Lemma gather_entry (g : TPGroup) (smp : Sampler)
    (i : nat) (inp : RankInput) (top_p : Q) (top_k : Z) (temperature : Q) :
  exists bufs K st,
    run_local (rank_env g smp i inp)
      (tensor_parallel_sample (in_logits inp) top_p top_k temperature)
      (init_state inp)
    = AtGather (in_logits inp) bufs (src_rank g) (members g) K st
    /\ trace st =
         replicate (length bufs) (EvAlloc (in_logits inp))
         ++ [EvGather (in_logits inp) bufs (src_rank g) (members g)]
    /\ length bufs = (if decide (i = 0) then length (members g) else 0)
    /\ Forall (fun b => shape b = shape (in_logits inp)
                        /\ dtype b = dtype (in_logits inp)) bufs.
Proof.
  destruct (tensor_parallel_sample_local (rank_env g smp i inp) (in_logits inp)
              top_p top_k temperature (init_state inp)) as (K & HK & _).
  eexists _, K, _. split; [exact HK|]. split; [done|].
  unfold gather_list_of, recv_buffers. simpl.
  destruct (decide (i = 0)); simpl.
  - split; [by rewrite length_fmap, length_seq|].
    apply Forall_fmap, Forall_forall. by intros a _.
  - by split.
Qed.

(** C6: every member enters the same gather, addressed to the group's
    designated destination.  The destination first allocates one receive
    buffer per member, each with the sizes and element type of its own
    logits shard; every other member allocates nothing and passes an empty
    list. *)
Theorem receive_buffers_allocated_on_destination_only (g : TPGroup)
    (smp : Sampler) (i m : nat) (inp : RankInput)
    (top_p : Q) (top_k : Z) (temperature : Q) :
  dst_is_first g ->
  NoDup (members g) ->
  members g !! i = Some m ->
  exists bufs K st,
    run_local (rank_env g smp i inp)
      (tensor_parallel_sample (in_logits inp) top_p top_k temperature)
      (init_state inp)
    = AtGather (in_logits inp) bufs (src_rank g) (members g) K st
    /\ trace st =
         replicate (length bufs) (EvAlloc (in_logits inp))
         ++ [EvGather (in_logits inp) bufs (src_rank g) (members g)]
    /\ length bufs =
         (if decide (m = src_rank g) then length (members g) else 0)
    /\ Forall (fun b => shape b = shape (in_logits inp)
                        /\ dtype b = dtype (in_logits inp)) bufs.
Proof.
  intros Hdst Hnd Hm.
  destruct (gather_entry g smp i inp top_p top_k temperature)
    as (bufs & K & st & Hrun & Htr & Hlen & Hall).
  exists bufs, K, st. split_and!; [done..| |done].
  rewrite Hlen. destruct (decide (i = 0)) as [->|Hi].
  - unfold dst_is_first in Hdst. rewrite Hdst in Hm. simplify_eq.
    by rewrite decide_True.
  - rewrite decide_False; [done|]. intros ->. apply Hi.
    by apply (NoDup_lookup (members g) i 0 (src_rank g)).
Qed.

(** C4 (as amended): a group of one member does not short-circuit: the
    member allocates its one receive buffer and performs the gather, with
    itself as destination, and then samples from its own logits, which are
    the whole vocabulary. *)
Theorem single_member_gathers_then_samples_locally (g : TPGroup)
    (smp : Sampler) (inp : RankInput) (lead : list nat) (v : nat)
    (top_p : Q) (top_k : Z) (temperature : Q) :
  dst_is_first g ->
  length (members g) = 1 ->
  shape (in_logits inp) = lead ++ [v] ->
  well_formed (in_logits inp) ->
  exists st,
    run_tensor_parallel_sample g smp [inp] top_p top_k temperature =
      [(direct_sample smp (in_rng inp) (in_logits inp) top_p top_k temperature,
        st)]
    /\ count_events is_gather (trace st) = 1
    /\ count_events is_alloc (trace st) = 1
    /\ count_events is_sample (trace st) = 1.
Proof.
  intros Hdst Hlen Hs Hwf.
  assert (shards_like (in_logits inp) [inp]) as Hlike by (by repeat constructor).
  destruct (destination_outcome g smp [inp] inp (in_logits inp) top_p top_k
              temperature Hdst ltac:(by rewrite Hlen) eq_refl Hlike
              (cat_last_single lead v _ Hs Hwf)) as (st & Hout & Htr).
  exists st. split.
  - rewrite (run_tensor_parallel_sample_configured g smp [inp] inp)
      in Hout |- * by (done || by rewrite Hlen).
    simpl in Hout |- *. injection Hout as Hout. by rewrite Hout.
  - rewrite Htr, !count_events_app.
    destruct (entry_state_counts g smp 0 inp) as (-> & -> & ->).
    rewrite decide_True by done. simpl. by rewrite Hlen.
Qed.


(** ** The claim about [get_batch_pipe] *)

Lemma clip_bound_le (m : nat) (i : Z) : clip_bound m i <= m.
Proof. unfold clip_bound. destruct (i <? 0)%Z eqn:E; lia. Qed.

(** Slicing the columns of a two-dimensional tensor. *)
Lemma slice_dim1_2d (t : Tensor) (b m : nat) (start stop : option Z) :
  shape t = [b; m] -> well_formed t ->
  exists t',
    slice_dim1 t start stop = Ok t'
    /\ shape t' = [b; from_option (clip_bound m) m stop
                      - from_option (clip_bound m) 0 start]
    /\ dtype t' = dtype t
    /\ well_formed t'
    /\ forall r c,
         r < b ->
         c < from_option (clip_bound m) m stop
             - from_option (clip_bound m) 0 start ->
         at2 t' r c = at2 t r (from_option (clip_bound m) 0 start + c).
Proof.
  intros Hs Hwf. unfold slice_dim1. rewrite Hs.
  set (lo := from_option (clip_bound m) 0 start).
  set (hi := from_option (clip_bound m) m stop).
  assert (hi <= m) as Hhi.
  { unfold hi. destruct stop; simpl; [apply clip_bound_le|done]. }
  unfold well_formed in Hwf. rewrite Hs in Hwf. simpl in Hwf.
  assert (forall r, r < b ->
            length (take ((hi - lo) * 1) (drop ((r * m + lo) * 1) (data t)))
            = hi - lo) as Hchunk.
  { intros r Hr. rewrite length_take, length_drop.
    assert (S r * m <= b * m) by (apply Nat.mul_le_mono_r; lia).
    simpl in *. lia. }
  eexists. split; [reflexivity|]. simpl. split_and!; [done..| |].
  - unfold well_formed. simpl.
    rewrite (length_bind_const _ (hi - lo)).
    + rewrite length_seq. lia.
    + intros r Hr. apply elem_of_seq in Hr. apply Hchunk. lia.
  - intros r c Hr Hc. unfold at2. simpl. rewrite Hs.
    rewrite decide_True by done. rewrite decide_True by lia.
    rewrite (lookup_bind_chunks _ (hi - lo) _ r c r).
    + rewrite lookup_take_lt by lia. rewrite lookup_drop. f_equal. lia.
    + apply Forall_forall. intros r' Hr'. apply elem_of_seq in Hr'.
      apply Hchunk. lia.
    + by rewrite lookup_seq_lt.
    + done.
Qed.

Lemma slice_dim1_total (t : Tensor) (start stop : option Z) :
  2 <= dim t -> exists t', slice_dim1 t start stop = Ok t'.
Proof.
  unfold dim, slice_dim1. intros H.
  destruct (shape t) as [|b [|m rest]]; simpl in H; [lia..|]. eauto.
Qed.

(** C10 (as amended): with the broadcast text tensor of [n] columns,
    [get_batch_pipe] returns as tokens its columns [0 .. n-2] and as labels
    its columns [1 .. n-1], the tokens shifted left by one position, each
    with [n - 1] columns, unless legacy curriculum learning cuts both to
    their first [curriculum_seqlen] columns. *)
Theorem get_batch_pipe_tokens_and_shifted_labels (args : Args) (eod : Z)
    (bd : list string -> gmap string Tensor -> DType
          -> result (gmap string Tensor))
    (gl : Tensor -> Z -> bool -> bool -> bool
          -> result (Tensor * Tensor * Tensor))
    (batch batch_b : gmap string Tensor) (text text_b : Tensor) (b n : nat) :
  batch !! "text"%string = Some text ->
  bd ["text"%string]
     (if decide (dim text = 3) then <["text"%string := squeeze_1 text]> batch
      else batch) Int64 = Ok batch_b ->
  batch_b !! "text"%string = Some text_b ->
  shape text_b = [b; n] -> dtype text_b = Int64 -> well_formed text_b ->
  masks_shaped gl eod args ->
  exists out,
    get_batch_pipe args eod bd gl batch = Ok out
    /\ shape (tokens out) = [b; kept_columns args n]
    /\ shape (labels out) = [b; kept_columns args n]
    /\ (forall r c, r < b -> c < kept_columns args n ->
          at2 (tokens out) r c = at2 text_b r c
          /\ at2 (labels out) r c = at2 text_b r (1 + c))
    /\ (curriculum_learning_legacy args = false ->
        kept_columns args n = n - 1).
Proof.
  intros Hdata Hbd Hb Hs Hdt Hwf Hgl.
  unfold get_batch_pipe, getitem. rewrite Hdata. cbn [rbind].
  rewrite Hbd. cbn [rbind]. rewrite Hb. cbn [rbind].
  unfold long. rewrite Hdt. cbn [rbind].
  set (tokens_ := mkTensor (shape text_b) Int64 (data text_b)).
  assert (tokens_ = text_b) as Htok
    by (unfold tokens_; rewrite <- Hdt; apply tensor_eta).
  rewrite Htok. clear tokens_ Htok.
  destruct (slice_dim1_2d text_b b n (Some 1%Z) None Hs Hwf)
    as (lab & -> & Hls & _ & Hlwf & Hlat).
  destruct (slice_dim1_2d text_b b n None (Some (-1)%Z) Hs Hwf)
    as (tok & -> & Hts & _ & Htwf & Htat).
  cbn [rbind]. simpl in Hls, Hts, Hlat, Htat.
  assert (clip_bound n (-1) = n - 1) as E1 by (unfold clip_bound; simpl; lia).
  assert (clip_bound n 1 = Nat.min 1 n) as E2 by (unfold clip_bound; by simpl).
  rewrite E1, ?Nat.sub_0_r in Hts, Htat. rewrite E2 in Hls, Hlat.
  replace (n - Nat.min 1 n) with (n - 1) in Hls, Hlat by lia.
  destruct (Hgl tok b (n - 1) Hts) as (am & lm & pid & -> & Hlm & Hpid).
  cbn [rbind]. unfold size_1. rewrite Hts. unfold kept_columns.
  destruct (curriculum_learning_legacy args) eqn:Ecl; cbn [rbind andb].
  - destruct (bool_decide (curriculum_seqlen args < Z.of_nat (n - 1))%Z)
      eqn:Elt.
    + destruct (slice_dim1_2d tok b (n - 1) None
                  (Some (curriculum_seqlen args)) Hts Htwf)
        as (tok' & -> & Hts' & _ & _ & Htat').
      destruct (slice_dim1_total pid None (Some (curriculum_seqlen args)) Hpid)
        as (pid' & ->).
      destruct (slice_dim1_2d lab b (n - 1) None
                  (Some (curriculum_seqlen args)) Hls Hlwf)
        as (lab' & -> & Hls' & _ & _ & Hlat').
      destruct (slice_dim1_total lm None (Some (curriculum_seqlen args)) Hlm)
        as (lm' & ->).
      cbn [rbind]. simpl in Hts', Hls', Htat', Hlat'.
      rewrite Nat.sub_0_r in Hts', Hls', Htat', Hlat'.
      eexists. split; [reflexivity|]. simpl.
      split_and!; [done|done| |done].
      intros r c Hr Hc.
      pose proof (clip_bound_le (n - 1) (curriculum_seqlen args)).
      rewrite Htat', Hlat' by done. simpl.
      rewrite Htat, Hlat by lia. split; [done|]. f_equal. lia.
    + eexists. split; [reflexivity|]. simpl.
      split_and!; [done|done| |done].
      intros r c Hr Hc. rewrite Htat, Hlat by lia. split; [done|].
      f_equal. lia.
  - eexists. split; [reflexivity|]. simpl.
    split_and!; [done|done| |done].
    intros r c Hr Hc. rewrite Htat, Hlat by lia. split; [done|].
    f_equal. lia.
Qed.

Lemma greedy_sample_one_token : one_token_per_row greedy_sample.
Proof.
  intros seed logits top_p top_k temperature tok seed' H.
  unfold greedy_sample in H.
  destruct (split_last (shape logits)) as [[lead n]|] eqn:E; [|done].
  apply split_last_Some in E.
  destruct (decide (n = 0)); [done|].
  destruct (_ && _); [|done]. simplify_eq. by exists lead, n.
Qed.

Lemma ltor_masks_plain_shaped (eod : Z) (args : Args) :
  masks_shaped ltor_masks_plain eod args.
Proof.
  intros toks b n Hs. unfold ltor_masks_plain. rewrite Hs.
  do 3 eexists. split; [reflexivity|]. unfold dim. simpl. lia.
Qed.

(** ** The theorems at concrete inputs *)

Import Examples.

Lemma refines_direct_sample_witness :
  fst <$> (run_tensor_parallel_sample group2 greedy_sample inputs2 0 1 1 !! 0)
  = Some (direct_sample greedy_sample 11%Z full24 0 1 1).
Proof.
  apply (tensor_parallel_sample_refines_direct_sample group2 greedy_sample
           [2] 2 2 Float32 [1; 5; 9; 3; 7; 2; 0; 8]%Z inputs2 member0 0 1 1);
    reflexivity.
Defined.

(** C1, as stated, fails on a partition into shards of different widths:
    the shard of width one does not fit the buffer the destination
    allocated like its own shard of width two, and the destination gets no
    token, while direct sampling picks token 2. *)
Lemma uneven_partition_counterexample :
  shard_from full13 0 [2; 1] = Ok (in_logits <$> inputs_uneven)
  /\ sum_list [2; 1] = last_size full13
  /\ fst <$> (run_tensor_parallel_sample group2 greedy_sample inputs_uneven
                0 1 1 !! 0)
     = Some (Raise ShapeMismatch)
  /\ direct_sample greedy_sample 11%Z full13 0 1 1
     = Ok (mkTensor [1] Int64 [2%Z]).
Proof. repeat split. Qed.

Lemma one_member_samples_witness :
  exists res st,
    run_tensor_parallel_sample group2 greedy_sample inputs2 0 1 1 !! 1
      = Some (res, st)
    /\ count_events is_sample (trace st) = (if decide (1 = 0) then 1 else 0)
    /\ (1 <> 0 ->
        exists ph,
          res = Ok ph /\ placeholder_of member1 = Ok ph
          /\ shape ph = [2] /\ dtype ph = Float32
          /\ forall tok st0,
               run_tensor_parallel_sample group2 greedy_sample inputs2 0 1 1
                 !! 0 = Some (Ok tok, st0) ->
               shape tok = shape ph).
Proof.
  apply (one_member_samples_others_return_placeholders group2 greedy_sample
           inputs2 member0 [2] 2 Float32 0 1 1);
    [reflexivity|reflexivity|reflexivity| |lia| |reflexivity].
  - repeat constructor.
  - exact greedy_sample_one_token.
Defined.

(** C2, as stated, fails on the element type: the member of rank 0 returns
    64-bit integer token ids, the other member a placeholder of the
    logits' floating-point type. *)
Lemma placeholder_type_counterexample :
  exists tok ph st0 st1,
    run_tensor_parallel_sample group2 greedy_sample inputs2 0 1 1
      = [(Ok tok, st0); (Ok ph, st1)]
    /\ shape ph = shape tok
    /\ dtype tok = Int64 /\ dtype ph = Float32 /\ dtype ph <> dtype tok.
Proof. do 4 eexists. repeat split. done. Qed.

Lemma rank_ordered_concatenation_witness :
  exists full st,
    cat_last (in_logits <$> inputs2) = Ok full
    /\ shape full = [2] ++ [length inputs2 * 2]
    /\ (forall i inp r c,
          inputs2 !! i = Some inp -> r < numel [2] -> c < 2 ->
          get full r (i * 2 + c) = get (in_logits inp) r c)
    /\ run_tensor_parallel_sample group2 greedy_sample inputs2 0 1 1 !! 0
       = Some (direct_sample greedy_sample (in_rng member0) full 0 1 1, st)
    /\ trace st =
         replicate (length (members group2)) (EvAlloc (in_logits member0))
         ++ [EvGather (in_logits member0)
               (recv_buffers (in_uninit member0) 0 (length (members group2))
                  (in_logits member0))
               (src_rank group2) (members group2);
             EvSample full 0 1 1].
Proof.
  apply (destination_samples_rank_ordered_concatenation group2 greedy_sample
           inputs2 member0 [2] 2 Float32 0 1 1);
    [reflexivity|reflexivity|reflexivity| | ]; repeat constructor.
Defined.

Lemma single_member_witness :
  exists st,
    run_tensor_parallel_sample group1 greedy_sample [single] 0 1 1 =
      [(direct_sample greedy_sample (in_rng single) (in_logits single) 0 1 1,
        st)]
    /\ count_events is_gather (trace st) = 1
    /\ count_events is_alloc (trace st) = 1
    /\ count_events is_sample (trace st) = 1.
Proof.
  apply (single_member_gathers_then_samples_locally group1 greedy_sample
           single [2] 4 0 1 1); reflexivity.
Defined.

(** C4, as stated, fails: the single member of a group of one performs the
    gather. *)
Lemma single_member_gather_counterexample :
  exists res st,
    length (members group1) = 1
    /\ run_tensor_parallel_sample group1 greedy_sample [single] 0 1 1
       = [(res, st)]
    /\ count_events is_gather (trace st) = 1
    /\ count_events is_gather (trace st) <> 0.
Proof. do 2 eexists. repeat split. done. Qed.

Lemma placeholder_shape_witness :
  exists ph st,
    run_tensor_parallel_sample group2 greedy_sample inputs2 0 1 1 !! 1
      = Some (Ok ph, st)
    /\ placeholder_of member1 = Ok ph
    /\ shape (in_logits member1) = shape ph ++ [2]
    /\ forall tok st0,
         run_tensor_parallel_sample group2 greedy_sample inputs2 0 1 1 !! 0
           = Some (Ok tok, st0) ->
         shape ph = shape tok.
Proof.
  apply (placeholder_has_leading_shape group2 greedy_sample inputs2 member0
           member1 1 [2] 2 Float32 0 1 1);
    [reflexivity|reflexivity|reflexivity| |lia| |reflexivity|lia].
  - repeat constructor.
  - exact greedy_sample_one_token.
Defined.

Lemma placeholder_dtype_witness :
  exists ph st,
    run_tensor_parallel_sample group2 greedy_sample inputs2 0 1 1 !! 1
      = Some (Ok ph, st)
    /\ placeholder_of member1 = Ok ph
    /\ shape ph = [2]
    /\ shape (in_logits member1) = shape ph ++ [2]
    /\ dtype ph = dtype (in_logits member1)
    /\ (exists full st0,
          cat_last (in_logits <$> inputs2) = Ok full
          /\ run_tensor_parallel_sample group2 greedy_sample inputs2 0 1 1
               !! 0
             = Some (direct_sample greedy_sample (in_rng member0) full 0 1 1,
                     st0))
    /\ forall tok st0,
         run_tensor_parallel_sample group2 greedy_sample inputs2 0 1 1 !! 0
           = Some (Ok tok, st0) ->
         shape tok = [2] /\ shape ph = shape tok /\ dtype tok = Int64
         /\ (dtype (in_logits member1) <> Int64 -> dtype ph <> dtype tok).
Proof.
  apply (placeholder_keeps_logits_dtype group2 greedy_sample inputs2 member0
           member1 1 [2] 2 Float32 0 1 1);
    [reflexivity|reflexivity|reflexivity| |lia| |reflexivity|lia].
  - repeat constructor.
  - exact greedy_sample_one_token.
Defined.


Lemma get_batch_pipe_witness :
  exists out,
    get_batch_pipe args_curriculum 0%Z broadcast_from_self ltor_masks_plain
      batch = Ok out
    /\ shape (tokens out) = [2; kept_columns args_curriculum 4]
    /\ shape (labels out) = [2; kept_columns args_curriculum 4]
    /\ (forall r c, r < 2 -> c < kept_columns args_curriculum 4 ->
          at2 (tokens out) r c = at2 text2 r c
          /\ at2 (labels out) r c = at2 text2 r (1 + c))
    /\ (curriculum_learning_legacy args_curriculum = false ->
        kept_columns args_curriculum 4 = 4 - 1).
Proof.
  apply (get_batch_pipe_tokens_and_shifted_labels args_curriculum 0%Z
           broadcast_from_self ltor_masks_plain batch batch_squeezed
           text3 text2 2 4);
    [reflexivity|vm_compute; reflexivity|reflexivity|reflexivity|reflexivity
    |reflexivity|].
  apply ltor_masks_plain_shaped.
Defined.

(** C10, as stated, fails when legacy curriculum learning is on with a
    sequence length below [n - 1]: of the four columns of the text, tokens
    and labels keep two columns each, not three. *)
Lemma curriculum_truncation_counterexample :
  exists out,
    get_batch_pipe args_curriculum 0%Z broadcast_from_self ltor_masks_plain
      batch = Ok out
    /\ columns text2 = 4
    /\ tokens out = mkTensor [2; 2] Int64 [10; 11; 20; 21]%Z
    /\ labels out = mkTensor [2; 2] Int64 [11; 12; 21; 22]%Z
    /\ columns (tokens out) <> 4 - 1
    /\ columns (labels out) <> 4 - 1.
Proof.
  eexists. split; [vm_compute; reflexivity|]. simpl. repeat split; done.
Qed.

Lemma receive_buffers_witness :
  exists bufs K st,
    run_local (rank_env group2 greedy_sample 0 member0)
      (tensor_parallel_sample (in_logits member0) 0 1 1)
      (init_state member0)
    = AtGather (in_logits member0) bufs (src_rank group2) (members group2) K st
    /\ trace st =
         replicate (length bufs) (EvAlloc (in_logits member0))
         ++ [EvGather (in_logits member0) bufs (src_rank group2)
               (members group2)]
    /\ length bufs =
         (if decide (4 = src_rank group2) then length (members group2) else 0)
    /\ Forall (fun b => shape b = shape (in_logits member0)
                        /\ dtype b = dtype (in_logits member0)) bufs.
Proof.
  apply (receive_buffers_allocated_on_destination_only group2 greedy_sample
           0 4 member0 0 1 1); [reflexivity| |reflexivity].
  simpl. apply NoDup_cons. split; [|apply NoDup_singleton].
  intros H. apply list_elem_of_singleton in H. discriminate H.
Defined.

(** * Further properties of [tensor_parallel_sample] *)

Lemma finish_gather_count (env : RankEnv) (logits : Tensor)
    (recv : list Tensor) (top_p : Q) (top_k : Z) (temperature : Q)
    (st : RankState) :
  count_events is_gather
    (trace (finish env logits recv top_p top_k temperature st).2)
  = count_events is_gather (trace st).
Proof.
  unfold finish. destruct (decide (env_rank env = 0)) as [H0|H0].
  - destruct (cat_last recv) as [full|e]; [|done].
    destruct (env_sampler env (rng st) full top_p top_k temperature)
      as [[tok seed']|e']; simpl; rewrite count_events_app; simpl; lia.
  - destruct (select_last_0 logits) as [slice|e']; [|done].
    simpl. rewrite count_events_app. simpl. lia.
Qed.

(** X1: whatever the group, its configuration and the shards: every member
    that calls [tensor_parallel_sample] enters the gather exactly once,
    whether the call then returns a token, a placeholder or raises. *)
Theorem every_member_gathers_exactly_once (g : TPGroup) (smp : Sampler)
    (inputs : list RankInput) (top_p : Q) (top_k : Z) (temperature : Q) :
  length (run_tensor_parallel_sample g smp inputs top_p top_k temperature)
  = length inputs
  /\ Forall (fun out => count_events is_gather (trace out.2) = 1)
       (run_tensor_parallel_sample g smp inputs top_p top_k temperature).
Proof.
  rewrite run_tensor_parallel_sample_lockstep. split; [apply length_imap|].
  apply Forall_lookup. intros i out Hout.
  apply list_lookup_imap_Some in Hout as (inp & Hi & ->).
  destruct (entry_state_counts g smp i inp) as (_ & Hg & _).
  destruct (gather_collective _) as [lists|e]; [|done].
  destruct (lists !! i) as [l|]; [|done].
  by rewrite finish_gather_count.
Qed.

Lemma gather_collective_mismatch (calls : list GatherCall) (dst : nat)
    (group : list nat) (d j : nat) (cd c : GatherCall) (b : Tensor) :
  calls <> [] ->
  Forall (fun c => gc_dst c = dst /\ gc_group c = group) calls ->
  length group = length calls ->
  list_find (fun m => m = dst) group = Some (d, dst) ->
  calls !! d = Some cd ->
  length (gc_list cd) = length calls ->
  gc_list cd !! j = Some b -> calls !! j = Some c ->
  fits b (gc_tensor c) = false ->
  gather_collective calls = Raise ShapeMismatch.
Proof.
  intros Hne Hagree Hall Hfind Hd Hlen Hb Hc Hfit.
  destruct (gather_collective_head calls Hne) as (c0 & H0 & ->).
  destruct (gather_to_checks calls dst group Hagree c0 H0)
    as (Hdst & Hgrp & Hsame).
  unfold gather_to. rewrite Hsame, Hdst, Hgrp. simpl negb. cbv iota.
  rewrite bool_decide_eq_true_2 by done.
  simpl negb. cbv iota. rewrite Hfind, Hd.
  rewrite bool_decide_eq_true_2 by done. simpl negb. cbv iota.
  assert (forallb (fun bc => fits bc.1 (gc_tensor bc.2))
            (zip (gc_list cd) calls) = false) as ->; [|done].
  apply not_true_is_false. intros Hall'.
  rewrite forallb_forall in Hall'.
  specialize (Hall' (b, c)). simpl in Hall'. rewrite Hfit in Hall'.
  assert (In (b, c) (zip (gc_list cd) calls)) as Hin.
  { apply list_elem_of_In, list_elem_of_lookup. exists j.
    rewrite lookup_zip_with, Hb, Hc. done. }
  specialize (Hall' Hin). discriminate Hall'.
Qed.

(** X2: a shard whose sizes or element type differ from those of the shard of
    the member of rank 0 does not fit the buffer that member allocated for
    it: the gather fails with a shape mismatch, every member's call raises
    it, and no member samples. *)
Theorem mismatched_shard_fails_whole_group (g : TPGroup) (smp : Sampler)
    (inputs : list RankInput) (inp0 inpj : RankInput) (j : nat)
    (top_p : Q) (top_k : Z) (temperature : Q) :
  dst_is_first g ->
  length inputs = length (members g) ->
  inputs !! 0 = Some inp0 ->
  inputs !! j = Some inpj ->
  (shape (in_logits inpj) <> shape (in_logits inp0)
   \/ dtype (in_logits inpj) <> dtype (in_logits inp0)) ->
  Forall (fun out => out.1 = Raise ShapeMismatch
                     /\ count_events is_sample (trace out.2) = 0)
    (run_tensor_parallel_sample g smp inputs top_p top_k temperature).
Proof.
  intros Hdst Hlen H0 Hj Hdiff.
  rewrite run_tensor_parallel_sample_lockstep.
  rewrite (gather_collective_mismatch (tps_calls g smp inputs) (src_rank g)
             (members g) 0 j
             (mkCall (in_logits inp0)
                (gather_list_of (rank_env g smp 0 inp0) 0 (in_logits inp0))
                (src_rank g) (members g))
             (mkCall (in_logits inpj)
                (gather_list_of (rank_env g smp j inpj) 0 (in_logits inpj))
                (src_rank g) (members g))
             (empty_like (in_uninit inp0 j) (in_logits inp0))).
  - apply Forall_lookup. intros i out Hout.
    apply list_lookup_imap_Some in Hout as (inp & Hi & ->). cbn [fst snd].
    by destruct (entry_state_counts g smp i inp) as (-> & _).
  - unfold tps_calls. by destruct inputs.
  - apply tps_calls_agree.
  - unfold tps_calls. by rewrite length_imap.
  - by apply list_find_first.
  - unfold tps_calls. by rewrite list_lookup_imap, H0.
  - simpl. unfold gather_list_of, recv_buffers, tps_calls. simpl.
    by rewrite length_fmap, length_seq, length_imap.
  - simpl. unfold gather_list_of, recv_buffers. simpl.
    rewrite list_lookup_fmap, lookup_seq_lt; [done|].
    apply lookup_lt_Some in Hj. lia.
  - unfold tps_calls. by rewrite list_lookup_imap, Hj.
  - unfold fits. simpl. apply andb_false_iff.
    destruct Hdiff as [Hs|Hd]; [left|right];
      by apply bool_decide_eq_false_2.
Qed.

(** The state a member enters the gather with does not depend on the
    sampling primitive. *)
Lemma entry_state_sampler (g : TPGroup) (smp smp' : Sampler) (i : nat)
    (inp : RankInput) :
  entry_state g smp i inp = entry_state g smp' i inp.
Proof. reflexivity. Qed.

(** X3: a member of rank other than 0 never calls the sampling primitive and
    never touches its random generator; what it returns, and all it does,
    is the same for every sampling primitive and every [top_p], [top_k]
    and [temperature]. *)
Theorem non_destination_ignores_sampling_parameters (g : TPGroup)
    (smp smp' : Sampler) (inputs : list RankInput) (inp0 inp : RankInput)
    (i : nat) (top_p top_p' : Q) (top_k top_k' : Z)
    (temperature temperature' : Q) :
  dst_is_first g ->
  length inputs = length (members g) ->
  inputs !! 0 = Some inp0 ->
  shards_like (in_logits inp0) inputs ->
  inputs !! i = Some inp -> i <> 0 ->
  exists res st,
    run_tensor_parallel_sample g smp inputs top_p top_k temperature !! i
      = Some (res, st)
    /\ run_tensor_parallel_sample g smp' inputs top_p' top_k' temperature' !! i
       = Some (res, st)
    /\ rng st = in_rng inp
    /\ count_events is_sample (trace st) = 0.
Proof.
  intros Hdst Hlen H0 Hlike Hi Hne.
  rewrite !(run_tensor_parallel_sample_configured g _ inputs inp0) by done.
  rewrite !list_lookup_imap, Hi. cbn [fmap option_fmap option_map].
  rewrite (entry_state_sampler g smp' smp).
  destruct (entry_state_counts g smp i inp) as (Hs & _).
  assert (rng (entry_state g smp i inp) = in_rng inp) as Hr by reflexivity.
  remember (entry_state g smp i inp) as st0 eqn:Est. clear Est.
  unfold finish. simpl. rewrite !decide_False by done.
  destruct (select_last_0 (in_logits inp)) as [slice|e].
  - eexists _, _. split_and!; [reflexivity|reflexivity|done|].
    simpl. rewrite count_events_app, Hs. done.
  - eexists _, _. split_and!; [reflexivity|reflexivity|done|done].
Qed.

(** X4: the token of the member of rank 0 depends on the shards, its own
    generator state and the sampling parameters only: neither what its
    freshly allocated buffers held, nor the other members' generators,
    nor what the other members' storage held, has any influence. *)
Theorem destination_ignores_uninitialised_storage (g : TPGroup)
    (smp : Sampler) (inputs inputs' : list RankInput)
    (inp0 inp0' : RankInput) (top_p : Q) (top_k : Z) (temperature : Q) :
  dst_is_first g ->
  length inputs = length (members g) ->
  inputs !! 0 = Some inp0 ->
  inputs' !! 0 = Some inp0' ->
  shards_like (in_logits inp0) inputs ->
  in_logits <$> inputs' = in_logits <$> inputs ->
  in_rng inp0' = in_rng inp0 ->
  exists res st st',
    run_tensor_parallel_sample g smp inputs top_p top_k temperature !! 0
      = Some (res, st)
    /\ run_tensor_parallel_sample g smp inputs' top_p top_k temperature !! 0
       = Some (res, st')
    /\ rng st' = rng st.
Proof.
  intros Hdst Hlen H0 H0' Hlike Heq Hrng.
  assert (in_logits inp0' = in_logits inp0) as Hl0.
  { assert ((in_logits <$> inputs') !! 0 = (in_logits <$> inputs) !! 0) as H
      by (by rewrite Heq).
    rewrite !list_lookup_fmap, H0, H0' in H. by simplify_eq. }
  assert (length inputs' = length (members g)) as Hlen'.
  { rewrite <- Hlen, <- (length_fmap in_logits inputs'), Heq.
    apply length_fmap. }
  assert (shards_like (in_logits inp0') inputs') as Hlike'.
  { rewrite Hl0. apply Forall_lookup. intros i inp Hi.
    assert ((in_logits <$> inputs) !! i = Some (in_logits inp)) as H
      by (by rewrite <- Heq, list_lookup_fmap, Hi).
    apply list_lookup_fmap_Some in H as (inp1 & -> & H1).
    by apply (proj1 (Forall_lookup _ _) Hlike i inp1). }
  rewrite (run_tensor_parallel_sample_configured g smp inputs inp0) by done.
  rewrite (run_tensor_parallel_sample_configured g smp inputs' inp0') by done.
  rewrite !list_lookup_imap, H0, H0'. cbn [fmap option_fmap option_map].
  unfold finish. simpl. rewrite Heq, Hrng.
  destruct (cat_last (in_logits <$> inputs)) as [full|e].
  - destruct (smp (in_rng inp0) full top_p top_k temperature)
      as [[tok seed']|e]; eexists _, _, _; split_and!; reflexivity || done.
  - eexists _, _, _. split_and!; [reflexivity|reflexivity|done].
Qed.

(** X5: on the member of rank 0 the sampling primitive is the only thing that
    touches the random generator: after the call the generator is in the
    state the primitive left it in, or untouched if the primitive raised. *)
Theorem destination_generator_follows_sampler (g : TPGroup) (smp : Sampler)
    (inputs : list RankInput) (inp0 : RankInput)
    (lead : list nat) (v : nat) (dt : DType)
    (top_p : Q) (top_k : Z) (temperature : Q) :
  dst_is_first g ->
  length inputs = length (members g) ->
  inputs !! 0 = Some inp0 ->
  shards_uniform lead v dt inputs ->
  exists full res st,
    cat_last (in_logits <$> inputs) = Ok full
    /\ run_tensor_parallel_sample g smp inputs top_p top_k temperature !! 0
       = Some (res, st)
    /\ match smp (in_rng inp0) full top_p top_k temperature with
       | Ok (tok, seed') => res = Ok tok /\ rng st = seed'
       | Raise e => res = Raise e /\ rng st = in_rng inp0
       end.
Proof.
  intros Hdst Hlen H0 Hu.
  pose proof (shards_uniform_cat _ _ _ _ _ Hu H0) as Hcat.
  rewrite (run_tensor_parallel_sample_configured g smp inputs inp0);
    [|done..|by eapply shards_uniform_like].
  rewrite list_lookup_imap, H0. cbn [fmap option_fmap option_map].
  unfold finish. simpl. rewrite Hcat.
  destruct (smp (in_rng inp0) _ top_p top_k temperature)
    as [[tok seed']|e] eqn:E;
    eexists _, _, _; (split; [reflexivity|]); (split; [reflexivity|]);
    rewrite E; done.
Qed.

(** X6: logits without any dimension cannot be gathered into a token: after
    the gather the member of rank 0 fails to concatenate them and every
    other member fails to take [logits[..., 0]]; nobody samples. *)
Theorem scalar_logits_fail_after_gather (g : TPGroup) (smp : Sampler)
    (inputs : list RankInput) (inp0 : RankInput)
    (top_p : Q) (top_k : Z) (temperature : Q) :
  dst_is_first g ->
  length inputs = length (members g) ->
  inputs !! 0 = Some inp0 ->
  shards_like (in_logits inp0) inputs ->
  shape (in_logits inp0) = [] ->
  forall i inp, inputs !! i = Some inp ->
    exists st,
      run_tensor_parallel_sample g smp inputs top_p top_k temperature !! i
        = Some (Raise (if decide (i = 0) then CatError else IndexError), st)
      /\ count_events is_gather (trace st) = 1
      /\ count_events is_sample (trace st) = 0.
Proof.
  intros Hdst Hlen H0 Hlike Hs0 i inp Hi.
  rewrite (run_tensor_parallel_sample_configured g smp inputs inp0) by done.
  rewrite list_lookup_imap, Hi. cbn [fmap option_fmap option_map].
  destruct (entry_state_counts g smp i inp) as (Hs & Hg & _).
  remember (entry_state g smp i inp) as st0 eqn:Est. clear Est.
  unfold finish. simpl. destruct (decide (i = 0)) as [->|Hne].
  - assert (cat_last (in_logits <$> inputs) = Raise CatError) as ->.
    { destruct inputs as [|x inputs]; [done|]. simpl in H0. simplify_eq.
      unfold cat_last. rewrite fmap_cons, Hs0. done. }
    eauto.
  - pose proof (proj1 (Forall_lookup _ _) Hlike i inp Hi) as [Hsi _].
    unfold select_last_0. rewrite Hsi, Hs0. simpl. eauto.
Qed.

Lemma bind_nil_all {A B : Type} (f : A -> list B) (l : list A) :
  (forall x, x ∈ l -> f x = []) -> (x ← l; f x) = [].
Proof.
  induction l as [|a l IH]; intros H; [done|].
  rewrite bind_cons, (H a) by left. apply IH. intros x Hx. apply H. by right.
Qed.

(** X7: shards with an empty vocabulary dimension: the member of rank 0 still
    calls the sampling primitive, on logits with no column, while every
    other member raises an index error, there being no position 0 to take
    the placeholder's shape from. *)
Theorem empty_vocabulary_shards (g : TPGroup) (smp : Sampler)
    (inputs : list RankInput) (inp0 : RankInput) (lead : list nat)
    (dt : DType) (top_p : Q) (top_k : Z) (temperature : Q) :
  dst_is_first g ->
  length inputs = length (members g) ->
  inputs !! 0 = Some inp0 ->
  shards_uniform lead 0 dt inputs ->
  (exists st,
     run_tensor_parallel_sample g smp inputs top_p top_k temperature !! 0
       = Some (direct_sample smp (in_rng inp0) (mkTensor (lead ++ [0]) dt [])
                 top_p top_k temperature, st)
     /\ count_events is_sample (trace st) = 1)
  /\ forall i inp, inputs !! i = Some inp -> i <> 0 ->
       exists st,
         run_tensor_parallel_sample g smp inputs top_p top_k temperature !! i
           = Some (Raise IndexError, st)
         /\ count_events is_sample (trace st) = 0.
Proof.
  intros Hdst Hlen H0 Hu.
  pose proof (shards_uniform_like _ _ _ _ _ Hu H0) as Hlike. split.
  - assert (cat_last (in_logits <$> inputs)
            = Ok (mkTensor (lead ++ [0]) dt [])) as Hcat.
    { rewrite (shards_uniform_cat _ _ _ _ _ Hu H0).
      rewrite Nat.mul_0_r. do 2 f_equal.
      apply bind_nil_all. intros r _. apply bind_nil_all. by intros t _. }
    destruct (destination_outcome g smp inputs inp0 _ top_p top_k temperature
                Hdst Hlen H0 Hlike Hcat) as (st & Hout & Htr).
    exists st. split; [done|]. rewrite Htr, count_events_app.
    by destruct (entry_state_counts g smp 0 inp0) as (-> & _).
  - intros i inp Hi Hne.
    destruct (non_destination_outcome g smp inputs inp0 inp i top_p top_k
                temperature Hdst Hlen H0 Hlike Hi Hne) as (st & Hout & Hs & _).
    exists st. split; [|done]. rewrite Hout. do 2 f_equal.
    destruct (shards_uniform_lookup _ _ _ _ _ _ Hu Hi) as [Hshape _].
    unfold placeholder_of, select_last_0.
    by rewrite Hshape, split_last_snoc.
Qed.

(** * Further properties of [get_batch_pipe] *)

(** What a successful run of [get_batch_pipe] went through. *)
Lemma get_batch_pipe_inv (args : Args) (eod : Z)
    (bd : list string -> gmap string Tensor -> DType
          -> result (gmap string Tensor))
    (gl : Tensor -> Z -> bool -> bool -> bool
          -> result (Tensor * Tensor * Tensor))
    (batch : gmap string Tensor) (out : BatchOut) :
  get_batch_pipe args eod bd gl batch = Ok out ->
  exists text batch_b text_b tokens_ labs toks lm pid,
    batch !! "text"%string = Some text
    /\ bd ["text"%string] (squeezed_batch batch text) Int64 = Ok batch_b
    /\ batch_b !! "text"%string = Some text_b
    /\ long text_b = Ok tokens_
    /\ slice_dim1 tokens_ (Some 1%Z) None = Ok labs
    /\ slice_dim1 tokens_ None (Some (-1)%Z) = Ok toks
    /\ gl toks eod (reset_position_ids args) (reset_attention_mask args)
         (eod_mask_loss args) = Ok (attention_mask out, lm, pid)
    /\ data_after out = squeezed_batch batch text
    /\ ((curriculum_learning_legacy args
         && bool_decide (curriculum_seqlen args < Z.of_nat (columns toks))%Z
         = false
         /\ tokens out = toks /\ labels out = labs
         /\ position_ids out = pid /\ loss_mask out = lm)
        \/ (curriculum_learning_legacy args = true
            /\ (curriculum_seqlen args < Z.of_nat (columns toks))%Z
            /\ slice_dim1 toks None (Some (curriculum_seqlen args))
               = Ok (tokens out)
            /\ slice_dim1 labs None (Some (curriculum_seqlen args))
               = Ok (labels out)
            /\ slice_dim1 pid None (Some (curriculum_seqlen args))
               = Ok (position_ids out)
            /\ slice_dim1 lm None (Some (curriculum_seqlen args))
               = Ok (loss_mask out))).
Proof.
  unfold get_batch_pipe, getitem. intros H.
  destruct (batch !! "text"%string) as [text|] eqn:Etext; [|done].
  cbn [rbind] in H. fold (squeezed_batch batch text) in H.
  destruct (bd _ (squeezed_batch batch text) Int64) as [batch_b|] eqn:Ebd;
    [|done].
  cbn [rbind] in H.
  destruct (batch_b !! "text"%string) as [text_b|] eqn:Eb; [|done].
  cbn [rbind] in H.
  destruct (long text_b) as [tokens_|] eqn:Elong; [|done]. cbn [rbind] in H.
  destruct (slice_dim1 tokens_ (Some 1%Z) None) as [labs|] eqn:Elab; [|done].
  cbn [rbind] in H.
  destruct (slice_dim1 tokens_ None (Some (-1)%Z)) as [toks|] eqn:Etok;
    [|done].
  cbn [rbind] in H.
  destruct (gl toks eod _ _ _) as [[[am lm] pid]|] eqn:Egl; [|done].
  cbn [rbind] in H.
  exists text, batch_b, text_b, tokens_, labs, toks, lm, pid.
  assert (size_1 toks = Ok (columns toks)) as Hsize.
  { unfold slice_dim1 in Etok. unfold size_1, columns.
    destruct (shape tokens_) as [|b [|m rest]]; [done..|].
    by simplify_eq. }
  destruct (curriculum_learning_legacy args) eqn:Ecl.
  - rewrite Hsize in H. cbn [rbind] in H. rewrite andb_true_l.
    destruct (bool_decide (curriculum_seqlen args < Z.of_nat (columns toks))%Z)
      eqn:Elt.
    + destruct (slice_dim1 toks None _) as [toks'|] eqn:E1; [|done].
      cbn [rbind] in H.
      destruct (slice_dim1 pid None _) as [pid'|] eqn:E2; [|done].
      cbn [rbind] in H.
      destruct (slice_dim1 labs None _) as [labs'|] eqn:E3; [|done].
      cbn [rbind] in H.
      destruct (slice_dim1 lm None _) as [lm'|] eqn:E4; [|done].
      cbn [rbind] in H. simplify_eq. simpl.
      apply bool_decide_eq_true in Elt.
      split_and!; [done..|]. right. by split_and!.
    + simplify_eq. simpl. split_and!; [done..|]. left. by split_and!.
  - cbn [rbind] in H. simplify_eq. simpl.
    split_and!; [done..|]. left. by split_and!.
Qed.

(** X8: without a ['text'] entry the call raises a key error before any
    collaborator is consulted. *)
Theorem get_batch_pipe_missing_text (args : Args) (eod : Z)
    (bd : list string -> gmap string Tensor -> DType
          -> result (gmap string Tensor))
    (gl : Tensor -> Z -> bool -> bool -> bool
          -> result (Tensor * Tensor * Tensor))
    (batch : gmap string Tensor) :
  batch !! "text"%string = None ->
  get_batch_pipe args eod bd gl batch = Raise KeyError.
Proof. intros H. unfold get_batch_pipe, getitem. by rewrite H. Qed.

Lemma slice_dim1_shape (t t' : Tensor) (start stop : option Z) :
  slice_dim1 t start stop = Ok t' ->
  exists b m rest,
    shape t = b :: m :: rest
    /\ shape t' = b :: (from_option (clip_bound m) m stop
                        - from_option (clip_bound m) 0 start) :: rest
    /\ dtype t' = dtype t.
Proof.
  unfold slice_dim1. intros H.
  destruct (shape t) as [|b [|m rest]]; [done..|]. simplify_eq.
  by exists b, m, rest.
Qed.

Lemma long_inv (t t' : Tensor) :
  long t = Ok t' -> shape t' = shape t /\ dtype t' = Int64 /\ data t' = data t.
Proof. unfold long. intros H. destruct (dtype t); by simplify_eq. Qed.

(** X9: a text tensor that arrives from the broadcast with fewer than two
    dimensions has no columns to shift: the call raises an index error. *)
Theorem get_batch_pipe_needs_two_dimensions (args : Args) (eod : Z)
    (bd : list string -> gmap string Tensor -> DType
          -> result (gmap string Tensor))
    (gl : Tensor -> Z -> bool -> bool -> bool
          -> result (Tensor * Tensor * Tensor))
    (batch batch_b : gmap string Tensor) (text text_b : Tensor) :
  batch !! "text"%string = Some text ->
  bd ["text"%string] (squeezed_batch batch text) Int64 = Ok batch_b ->
  batch_b !! "text"%string = Some text_b ->
  dtype text_b = Int64 ->
  dim text_b < 2 ->
  get_batch_pipe args eod bd gl batch = Raise IndexError.
Proof.
  intros Htext Hbd Hb Hdt Hdim. unfold get_batch_pipe, getitem.
  rewrite Htext. cbn [rbind]. fold (squeezed_batch batch text).
  rewrite Hbd. cbn [rbind]. rewrite Hb. cbn [rbind].
  unfold long. rewrite Hdt. cbn [rbind]. unfold slice_dim1. simpl.
  unfold dim in Hdim.
  destruct (shape text_b) as [|b [|m rest]]; simpl in Hdim; [done|done|lia].
Qed.


Lemma squeezed_batch_idem (batch : gmap string Tensor) (text : Tensor) :
  batch !! "text"%string = Some text ->
  exists text',
    squeezed_batch batch text !! "text"%string = Some text'
    /\ squeezed_batch (squeezed_batch batch text) text'
       = squeezed_batch batch text.
Proof.
  intros Htext. unfold squeezed_batch.
  destruct (decide (dim text = 3)) as [Hd|Hd].
  - exists (squeeze_1 text). rewrite lookup_insert_eq. split; [done|].
    destruct (decide (dim (squeeze_1 text) = 3)) as [Hd'|Hd']; [|done].
    rewrite insert_insert_eq. f_equal.
    unfold squeeze_1 in *. unfold dim in *.
    destruct (shape text) as [|b [|[|[|m]] rest]] eqn:Es; try done.
    + rewrite Es. done.
    + simpl in *. destruct rest as [|c [|]]; simpl in *; lia.
    + rewrite Es. done.
  - exists text. split; [done|]. by rewrite decide_False.
Qed.

(** X11: calling again on the dictionary the first call left behind gives the
    same result: the squeeze of the ['text'] entry is not repeated. *)
Theorem get_batch_pipe_repeatable (args : Args) (eod : Z)
    (bd : list string -> gmap string Tensor -> DType
          -> result (gmap string Tensor))
    (gl : Tensor -> Z -> bool -> bool -> bool
          -> result (Tensor * Tensor * Tensor))
    (batch : gmap string Tensor) (out : BatchOut) :
  get_batch_pipe args eod bd gl batch = Ok out ->
  get_batch_pipe args eod bd gl (data_after out) = Ok out.
Proof.
  intros H. pose proof H as Hinv. apply get_batch_pipe_inv in Hinv
    as (text & _ & _ & _ & _ & _ & _ & _ & Htext & _ & _ & _ & _ & _ & _
        & -> & _).
  destruct (squeezed_batch_idem batch text Htext) as (text' & Ht' & Hidem).
  rewrite <- H. unfold get_batch_pipe, getitem.
  rewrite Ht', Htext. cbn [rbind].
  fold (squeezed_batch (squeezed_batch batch text) text').
  fold (squeezed_batch batch text). by rewrite Hidem.
Qed.


(** X13: whatever the number of dimensions of the broadcast text and whatever
    the curriculum settings, tokens and labels come out with the same sizes,
    as 64-bit integers. *)
Theorem get_batch_pipe_tokens_labels_same_shape (args : Args) (eod : Z)
    (bd : list string -> gmap string Tensor -> DType
          -> result (gmap string Tensor))
    (gl : Tensor -> Z -> bool -> bool -> bool
          -> result (Tensor * Tensor * Tensor))
    (batch : gmap string Tensor) (out : BatchOut) :
  get_batch_pipe args eod bd gl batch = Ok out ->
  shape (tokens out) = shape (labels out)
  /\ dtype (tokens out) = Int64 /\ dtype (labels out) = Int64.
Proof.
  intros H. apply get_batch_pipe_inv in H
    as (text & batch_b & text_b & tokens_ & labs & toks & lm & pid
        & _ & _ & _ & Hlong & Hlab & Htok & _ & _ & Hcases).
  apply long_inv in Hlong as (_ & Hdt & _).
  apply slice_dim1_shape in Hlab as (b & m & rest & Hs & Hls & Hld).
  apply slice_dim1_shape in Htok as (b' & m' & rest' & Hs' & Hts & Htd).
  rewrite Hs in Hs'. simplify_eq. simpl in Hls, Hts.
  assert (clip_bound m' (-1) = m' - 1) as E1
    by (unfold clip_bound; simpl; lia).
  assert (clip_bound m' 1 = Nat.min 1 m') as E2
    by (unfold clip_bound; by simpl).
  rewrite E1, Nat.sub_0_r in Hts. rewrite E2 in Hls.
  replace (m' - Nat.min 1 m') with (m' - 1) in Hls by lia.
  destruct Hcases as [(_ & -> & -> & _)|(_ & _ & Ht & Hl & _)].
  - split_and!; congruence.
  - apply slice_dim1_shape in Ht as (b1 & m1 & r1 & Hs1 & Hts1 & Htd1).
    apply slice_dim1_shape in Hl as (b2 & m2 & r2 & Hs2 & Hls2 & Hld2).
    rewrite Hts in Hs1. rewrite Hls in Hs2. simplify_eq.
    split_and!; congruence.
Qed.

(** * Properties of [_create_ds_config_dict] *)

Module DsConfigFacts.

Import DsConfig.

Lemma dict_get_set_eq (key : string) (value : Json)
    (d : list (string * Json)) :
  dict_get key (dict_set key value d) = Some value.
Proof.
  induction d as [|[k v] d IH]; simpl.
  - by rewrite decide_True.
  - destruct (decide (k = key)) as [->|Hne]; simpl.
    + by rewrite decide_True.
    + by rewrite decide_False.
Qed.

Lemma dict_get_set_ne (key key' : string) (value : Json)
    (d : list (string * Json)) :
  key' <> key -> dict_get key' (dict_set key value d) = dict_get key' d.
Proof.
  intros Hne. induction d as [|[k v] d IH]; simpl.
  - by rewrite decide_False.
  - destruct (decide (k = key)) as [->|Hk]; simpl.
    + by rewrite !decide_False.
    + by rewrite IH.
Qed.

(** How a call on a configured world goes. *)
Lemma create_configured (open_json : string -> outcome Json) (w : World)
    (fields : list (string * Json)) :
  configured_as open_json w fields ->
  exists l h,
    h !! l = Some (JObj fields)
    /\ (forall l', l' < length (heap w) -> l' <> l -> h !! l' = heap w !! l')
    /\ _create_ds_config_dict open_json w =
         (Return l,
          mkWorld
            (if universal_checkpoint (args w)
             then <[l := JObj (dict_set "checkpoint" load_universal fields)]> h
             else h)
            (mkArgs PyNone (universal_checkpoint (args w)))).
Proof.
  unfold configured_as, _create_ds_config_dict, as_dict, load_config.
  intros H. destruct (deepspeed_config (args w)) as [|path|l]; [done| |].
  - rewrite H. exists (length (heap w)), (heap w ++ [JObj fields]).
    assert ((heap w ++ [JObj fields]) !! length (heap w)
            = Some (JObj fields)) as Hl
      by (rewrite lookup_app_r, Nat.sub_diag; done).
    split_and!; [done| |].
    + intros l' Hlt _. by rewrite lookup_app_l.
    + unfold setitem. rewrite Hl.
      by destruct (universal_checkpoint (args w)).
  - rewrite H. exists l, (heap w). split_and!; [done|done|].
    unfold setitem. rewrite H.
    by destruct (universal_checkpoint (args w)).
Qed.

(** X14: with [universal_checkpoint] set, the configuration returned has
    [{"load_universal": True}] as its whole ["checkpoint"] section,
    whatever that section held before, and every other entry as
    configured; without it the configuration is returned as configured. *)
Theorem universal_checkpoint_replaces_checkpoint_section
    (open_json : string -> outcome Json) (w : World)
    (fields : list (string * Json)) :
  configured_as open_json w fields ->
  exists l w' fields',
    _create_ds_config_dict open_json w = (Return l, w')
    /\ deref_dict (heap w') l = Some fields'
    /\ (universal_checkpoint (args w) = true ->
        dict_get "checkpoint" fields' = Some load_universal
        /\ forall key, key <> "checkpoint"%string ->
             dict_get key fields' = dict_get key fields)
    /\ (universal_checkpoint (args w) = false -> fields' = fields).
Proof.
  intros H. destruct (create_configured open_json w fields H)
    as (l & h & Hl & _ & ->).
  pose proof (lookup_lt_Some _ _ _ Hl) as Hlt.
  destruct (universal_checkpoint (args w)).
  - eexists l, _, _. split; [reflexivity|]. unfold deref_dict. simpl.
    rewrite list_lookup_insert_eq by done. split; [reflexivity|].
    split; [|done]. intros _. split.
    + apply dict_get_set_eq.
    + intros key Hkey. by apply dict_get_set_ne.
  - eexists l, _, _. split; [reflexivity|]. unfold deref_dict. simpl.
    rewrite Hl. split; [reflexivity|]. split; [done|]. done.
Qed.

(** X15: the call clears [args.deepspeed_config], so it can be made once: a
    second call finds [None], which is neither a [dict] nor a path, and
    raises a type error. *)
Theorem second_call_raises_type_error (open_json : string -> outcome Json)
    (w w' : World) (l : nat) :
  _create_ds_config_dict open_json w = (Return l, w') ->
  deepspeed_config (args w') = PyNone
  /\ _create_ds_config_dict open_json w' = (Except TypeError, w').
Proof.
  unfold _create_ds_config_dict. intros H.
  destruct (match as_dict (heap w) (deepspeed_config (args w)) with
            | Some l0 => Return (l0, heap w)
            | None => load_config open_json (heap w) (deepspeed_config (args w))
            end) as [[l0 h]|e]; [|by simplify_eq].
  destruct (if universal_checkpoint (args w)
            then setitem h l0 "checkpoint" load_universal
            else Return h) as [h'|e]; simplify_eq.
  simpl. done.
Qed.

(** X16: a configuration given as a [dict] is returned as that same object,
    not as a copy: no object is created, every other object is left as it
    was, and with [universal_checkpoint] the store of the ["checkpoint"]
    entry is made into the caller's own [dict]. *)
Theorem dict_config_is_returned_in_place (open_json : string -> outcome Json)
    (w : World) (l : nat) (fields : list (string * Json)) :
  deepspeed_config (args w) = PyRef l ->
  heap w !! l = Some (JObj fields) ->
  exists w',
    _create_ds_config_dict open_json w = (Return l, w')
    /\ length (heap w') = length (heap w)
    /\ (forall l', l' <> l -> heap w' !! l' = heap w !! l')
    /\ heap w' !! l =
         Some (JObj (if universal_checkpoint (args w)
                     then dict_set "checkpoint" load_universal fields
                     else fields)).
Proof.
  intros Hcfg Hl. unfold _create_ds_config_dict, as_dict, setitem.
  rewrite Hcfg, Hl. pose proof (lookup_lt_Some _ _ _ Hl) as Hlt.
  destruct (universal_checkpoint (args w)).
  - rewrite Hl. eexists. split; [reflexivity|]. simpl.
    rewrite length_insert. split_and!; [done| |].
    + intros l' Hne. by rewrite list_lookup_insert_ne.
    + by rewrite list_lookup_insert_eq.
  - eexists. split; [reflexivity|]. simpl. by split_and!.
Qed.

(** X17: when the call raises, [args.deepspeed_config] has not been cleared and
    no object that existed has changed; the exception is a type error, or
    the one raised while opening and parsing the file. *)
Theorem failure_keeps_arguments (open_json : string -> outcome Json)
    (w w' : World) (e : PyExn) :
  _create_ds_config_dict open_json w = (Except e, w') ->
  args w' = args w
  /\ (forall l, l < length (heap w) -> heap w' !! l = heap w !! l)
  /\ (e = TypeError
      \/ exists path,
           deepspeed_config (args w) = PyStr path
           /\ open_json path = Except e).
Proof.
  unfold _create_ds_config_dict, as_dict, load_config, setitem. intros H.
  destruct (deepspeed_config (args w)) as [|path|l] eqn:Ecfg.
  - simplify_eq. by split_and!; [| |left].
  - destruct (open_json path) as [j|e'] eqn:Eopen.
    + destruct (universal_checkpoint (args w)).
      * rewrite lookup_app_r, Nat.sub_diag in H by done. simpl in H.
        destruct j; simplify_eq; simpl;
          (split_and!; [done| |by left]);
          intros l Hl; by rewrite lookup_app_l.
      * simplify_eq.
    + simplify_eq. split_and!; [done|done|]. right. by exists path.
  - destruct (heap w !! l) as [[| | | | |fields]|] eqn:El;
      try (simplify_eq; by split_and!; [| |left]).
    destruct (universal_checkpoint (args w)); [|simplify_eq].
    rewrite El in H. simplify_eq.
Qed.

(** X18: the value loaded from the file is not checked to be an object: a
    list, a number or a string is returned as it is, and only the store of
    the ["checkpoint"] entry, when [universal_checkpoint] asks for it,
    fails on it with a type error. *)
Theorem non_object_config_is_not_validated
    (open_json : string -> outcome Json) (w : World) (path : string)
    (j : Json) :
  deepspeed_config (args w) = PyStr path ->
  open_json path = Return j ->
  (forall fields, j <> JObj fields) ->
  if universal_checkpoint (args w)
  then (_create_ds_config_dict open_json w).1 = Except TypeError
  else exists w',
         _create_ds_config_dict open_json w = (Return (length (heap w)), w')
         /\ heap w' !! length (heap w) = Some j.
Proof.
  intros Hcfg Hopen Hj.
  unfold _create_ds_config_dict, as_dict, load_config, setitem.
  rewrite Hcfg, Hopen.
  assert ((heap w ++ [j]) !! length (heap w) = Some j) as Hl
    by (rewrite lookup_app_r, Nat.sub_diag; done).
  destruct (universal_checkpoint (args w)).
  - rewrite Hl. destruct j as [| | | | |fields]; try done.
    by destruct (Hj fields).
  - eexists. split; [reflexivity|]. done.
Qed.

End DsConfigFacts.

(** * Properties of [model_provider] and [get_model] *)

Module ProviderFacts.

Import DsConfig Provider.

(** Converting a boolean tensor to half precision and back to booleans
    gives the tensor back. *)
Lemma float_round_trip (a : list (list bool)) :
  float_to_bool (to_float a) = a.
Proof.
  unfold float_to_bool, to_float. rewrite <- list_fmap_compose.
  rewrite <- (list_fmap_id a) at 2. apply list_fmap_ext. intros _ row _.
  simpl. rewrite <- list_fmap_compose.
  rewrite <- (list_fmap_id row) at 2. apply list_fmap_ext.
  by intros _ [] _.
Qed.

Lemma causal_entry (n r c : nat) :
  r < n -> c < n ->
  match lt_scalar (tril (ones n n)) (1 # 2) !! r with
  | Some row => row !! c
  | None => None
  end = Some (bool_decide (r < c)).
Proof.
  intros Hr Hc. unfold lt_scalar, tril, ones.
  rewrite list_lookup_fmap, list_lookup_imap, lookup_replicate_2 by done.
  simpl. rewrite list_lookup_fmap, list_lookup_imap, lookup_replicate_2
    by done.
  simpl. destruct (decide (c <= r)).
  - by rewrite bool_decide_eq_false_2 by lia.
  - by rewrite bool_decide_eq_true_2 by lia.
Qed.

Section Models.

Context {ModelType Config Param : Type}.
Variable core_transformer_config_from_args : Flags -> Config.
Variable parameters_of : @Built Config -> list Param.
Variable set_defaults : Param -> Param.
Variable has_ds_id : Param -> bool.
Variable ds_numel : Param -> nat.
Variable nelement : Param -> nat.
Variable data_parallel_rank tensor_rank pipeline_rank : nat.

#[local] Abbreviation Args := (@Provider.Args ModelType).
#[local] Abbreviation Module := (@Provider.Module ModelType Config Param).
#[local] Abbreviation provider :=
  (model_provider (ModelType := ModelType) core_transformer_config_from_args
     parameters_of).
#[local] Abbreviation get :=
  (get_model (Config := Config) set_defaults has_ds_id ds_numel nelement
     data_parallel_rank tensor_rank pipeline_rank).

(** X19: building the pipeline model stores in the arguments a mask of sizes
    [[1, 1, seq_length, seq_length]] that is set exactly at the future
    positions, key after query, whether or not the mask went through
    half precision on the way. *)
Theorem attention_mask_masks_future_positions (pre_process post_process : bool)
    (a : Args) :
  deepspeed (flags a) = true ->
  no_pipeline_parallel (flags a) = false ->
  exists m,
    attn_mask (provider pre_process post_process a).1.2 = Some m
    /\ mask_shape m = [1; 1; seq_length (flags a); seq_length (flags a)]
    /\ length (mask_rows m) = seq_length (flags a)
    /\ forall r c,
         r < seq_length (flags a) -> c < seq_length (flags a) ->
         mask_at m r c = Some (bool_decide (r < c)).
Proof.
  intros Hds Hpp. unfold model_provider. rewrite Hds, Hpp. simpl.
  eexists. split; [reflexivity|]. split; [done|].
  assert (mask_rows (precomputed_attn_mask (flags a))
          = lt_scalar (tril (ones (seq_length (flags a))
                               (seq_length (flags a)))) (1 # 2)) as Hrows.
  { unfold precomputed_attn_mask. simpl.
    destruct (fp16 (flags a)); [apply float_round_trip|].
    destruct (bf16 (flags a)); [apply float_round_trip|done]. }
  split.
  - rewrite Hrows. unfold lt_scalar, tril, ones.
    by rewrite length_fmap, length_imap, length_replicate.
  - intros r c Hr Hc. unfold mask_at. rewrite Hrows.
    by apply causal_entry.
Qed.

(** X20: a provider that returns a list of models, of whatever length, makes
    [get_model] raise an attribute error: the model type is assigned to
    what the provider returned before it is asked whether that is a list.
    By then [args.model_type] is set and nothing else has happened. *)
Theorem list_of_models_raises_attribute_error
    (model_provider_func : Args -> outcome Provided * Args * list Event)
    (mt : ModelType) (wrap_with_ddp : bool) (a a' : Args)
    (ms : list Module) (ev : list Event) :
  model_provider_func
    (mkArgs (flags a) (attn_mask a) (Some mt) (allow_transformer_engine a))
  = (Return (Many ms), a', ev) ->
  get model_provider_func mt wrap_with_ddp a = (Except AttributeError, a', ev).
Proof. intros H. unfold get_model. by rewrite H. Qed.

(** X21: whenever [get_model] returns, it returns exactly one model: the one
    the provider built, with its model type set and every parameter passed
    through the defaults setter; the model is a [GPTModel] or the
    transformer implementation is ['local'], and the arguments record the
    model type and whether the transformer engine is allowed. *)
Theorem get_model_returns_one_model
    (model_provider_func : Args -> outcome Provided * Args * list Event)
    (mt : ModelType) (wrap_with_ddp : bool) (a a' : Args)
    (ms : list Module) (ev : list Event) :
  get model_provider_func mt wrap_with_ddp a = (Return ms, a', ev) ->
  exists m a1 ev1,
    model_provider_func
      (mkArgs (flags a) (attn_mask a) (Some mt) (allow_transformer_engine a))
    = (Return (One m), a1, ev1)
    /\ ms = [mkModule (built m) (Some mt)
               (megatron_batch_fn_is_get_batch_pipe m)
               (set_defaults <$> parameters m)]
    /\ (is_GPTModel (built m) = true
        \/ transformer_impl (flags a1) = "local"%string)
    /\ allow_transformer_engine a' = Some (is_GPTModel (built m))
    /\ flags a' = flags a1 /\ attn_mask a' = attn_mask a1
    /\ args_model_type a' = args_model_type a1.
Proof.
  unfold get_model. intros H.
  destruct (model_provider_func _) as [[[[m|ms']|e] a1] ev1] eqn:E;
    [|done..].
  simpl in H. rewrite andb_true_r in H.
  destruct (is_GPTModel (built m)
            || bool_decide (transformer_impl (flags a1) = "local"%string))
    eqn:Hok; [|done].
  simplify_eq. exists m, a1, ev1. split_and!; try done.
  apply orb_true_iff in Hok as [?|?%bool_decide_eq_true]; auto.
Qed.

(** X22: [get_model] on [model_provider]: with DeepSpeed pipeline parallelism
    the model built is a [GPTModelPipe], which is not a [GPTModel], so the
    call succeeds only if the transformer implementation is ['local'] and
    raises an assertion error otherwise; in every other configuration a
    [GPTModel] is built and the call succeeds. *)
Theorem pipeline_model_needs_local_transformer_impl (mt : ModelType)
    (wrap_with_ddp : bool) (a : Args) :
  match
    (get (provide_default core_transformer_config_from_args parameters_of)
       mt wrap_with_ddp a).1.1
  with
  | Return ms =>
      exists m,
        ms = [m] /\ model_type m = Some mt
        /\ is_GPTModel (built m)
           = negb (deepspeed (flags a) && negb (no_pipeline_parallel (flags a)))
        /\ (is_GPTModel (built m) = true
            \/ transformer_impl (flags a) = "local"%string)
  | Except e =>
      e = AssertionError
      /\ deepspeed (flags a) = true /\ no_pipeline_parallel (flags a) = false
      /\ transformer_impl (flags a) <> "local"%string
  end.
Proof.
  unfold get_model, provide_default, model_provider. simpl.
  destruct (deepspeed (flags a)); simpl.
  - destruct (no_pipeline_parallel (flags a)); simpl.
    + eexists. split_and!; [reflexivity|done|done|by left].
    + destruct (bool_decide (transformer_impl (flags a) = "local"%string))
        eqn:Himpl; simpl.
      * apply bool_decide_eq_true in Himpl.
        eexists. split_and!; [reflexivity|done|done|by right].
      * apply bool_decide_eq_false in Himpl. by split_and!.
  - eexists. split_and!; [reflexivity|done|done|by left].
Qed.

End Models.

End ProviderFacts.

(** * The further properties at concrete inputs *)

Import MoreExamples.

Lemma mismatched_shard_witness :
  Forall (fun out => out.1 = Raise ShapeMismatch
                     /\ count_events is_sample (trace out.2) = 0)
    (run_tensor_parallel_sample group2 greedy_sample inputs_uneven 0 1 1).
Proof.
  apply (mismatched_shard_fails_whole_group group2 greedy_sample inputs_uneven
           wide_member thin_member 1 0 1 1);
    [reflexivity|reflexivity|reflexivity|reflexivity|].
  left. simpl. intros H. discriminate H.
Defined.

Lemma non_destination_witness :
  exists res st,
    run_tensor_parallel_sample group2 greedy_sample inputs2 0 1 1 !! 1
      = Some (res, st)
    /\ run_tensor_parallel_sample group2 greedy_sample inputs2 (1 # 2) 5 2 !! 1
       = Some (res, st)
    /\ rng st = in_rng member1
    /\ count_events is_sample (trace st) = 0.
Proof.
  apply (non_destination_ignores_sampling_parameters group2 greedy_sample
           greedy_sample inputs2 member0 member1 1 0 (1 # 2) 1 5 1 2);
    [reflexivity|reflexivity|reflexivity| |reflexivity|lia].
  repeat constructor.
Defined.

Lemma destination_storage_witness :
  exists res st st',
    run_tensor_parallel_sample group2 greedy_sample inputs2 0 1 1 !! 0
      = Some (res, st)
    /\ run_tensor_parallel_sample group2 greedy_sample inputs2_other 0 1 1 !! 0
       = Some (res, st')
    /\ rng st' = rng st.
Proof.
  apply (destination_ignores_uninitialised_storage group2 greedy_sample
           inputs2 inputs2_other member0 (mkInput shard0 11%Z stale7) 0 1 1);
    [reflexivity|reflexivity|reflexivity|reflexivity| |reflexivity
    |reflexivity].
  repeat constructor.
Defined.

Lemma destination_generator_witness :
  exists full res st,
    cat_last (in_logits <$> inputs2) = Ok full
    /\ run_tensor_parallel_sample group2 greedy_sample inputs2 0 1 1 !! 0
       = Some (res, st)
    /\ match greedy_sample (in_rng member0) full 0%Q 1%Z 1%Q with
       | Ok (tok, seed') => res = Ok tok /\ rng st = seed'
       | Raise e => res = Raise e /\ rng st = in_rng member0
       end.
Proof.
  apply (destination_generator_follows_sampler group2 greedy_sample inputs2
           member0 [2] 2 Float32 0 1 1);
    [reflexivity|reflexivity|reflexivity|].
  repeat constructor.
Defined.

Lemma scalar_logits_witness :
  exists st,
    run_tensor_parallel_sample group2 greedy_sample inputs_scalar 0 1 1 !! 1
      = Some (Raise (if decide (1 = 0) then CatError else IndexError), st)
    /\ count_events is_gather (trace st) = 1
    /\ count_events is_sample (trace st) = 0.
Proof.
  apply (scalar_logits_fail_after_gather group2 greedy_sample inputs_scalar
           scalar0 0 1 1 ltac:(reflexivity) ltac:(reflexivity)
           ltac:(reflexivity) ltac:(repeat constructor) ltac:(reflexivity)
           1 scalar1).
  reflexivity.
Defined.

Lemma empty_vocabulary_witness :
  (exists st,
     run_tensor_parallel_sample group2 greedy_sample inputs_hollow 0 1 1 !! 0
       = Some (direct_sample greedy_sample (in_rng hollow0)
                 (mkTensor ([2] ++ [0]) Float32 []) 0 1 1, st)
     /\ count_events is_sample (trace st) = 1)
  /\ forall i inp, inputs_hollow !! i = Some inp -> i <> 0 ->
       exists st,
         run_tensor_parallel_sample group2 greedy_sample inputs_hollow 0 1 1
           !! i = Some (Raise IndexError, st)
         /\ count_events is_sample (trace st) = 0.
Proof.
  apply (empty_vocabulary_shards group2 greedy_sample inputs_hollow hollow0
           [2] Float32 0 1 1); [reflexivity|reflexivity|reflexivity|].
  repeat constructor.
Defined.

Lemma missing_text_witness :
  get_batch_pipe args_plain 0%Z broadcast_from_self ltor_masks_plain ∅
  = Raise KeyError.
Proof.
  apply (get_batch_pipe_missing_text args_plain 0%Z broadcast_from_self
           ltor_masks_plain ∅).
  reflexivity.
Defined.

Lemma two_dimensions_witness :
  get_batch_pipe args_plain 0%Z broadcast_from_self ltor_masks_plain batch_flat
  = Raise IndexError.
Proof.
  apply (get_batch_pipe_needs_two_dimensions args_plain 0%Z
           broadcast_from_self ltor_masks_plain batch_flat batch_flat
           text1 text1);
    [reflexivity|vm_compute; reflexivity|reflexivity|reflexivity|].
  unfold dim. simpl. lia.
Defined.


Lemma repeatable_witness :
  exists out,
    get_batch_pipe args_curriculum 0%Z broadcast_from_self ltor_masks_plain
      batch = Ok out
    /\ get_batch_pipe args_curriculum 0%Z broadcast_from_self ltor_masks_plain
         (data_after out) = Ok out.
Proof.
  eexists. split; [vm_compute; reflexivity|].
  apply (get_batch_pipe_repeatable args_curriculum 0%Z broadcast_from_self
           ltor_masks_plain batch).
  vm_compute. reflexivity.
Defined.


Lemma same_shape_witness :
  exists out,
    get_batch_pipe args_curriculum 0%Z broadcast_from_self ltor_masks_plain
      batch = Ok out
    /\ shape (tokens out) = shape (labels out)
    /\ dtype (tokens out) = Int64 /\ dtype (labels out) = Int64.
Proof.
  eexists. split; [vm_compute; reflexivity|].
  apply (get_batch_pipe_tokens_labels_same_shape args_curriculum 0%Z
           broadcast_from_self ltor_masks_plain batch).
  vm_compute. reflexivity.
Defined.

Lemma universal_checkpoint_witness :
  exists l w' fields',
    DsConfig._create_ds_config_dict files world_path = (DsConfig.Return l, w')
    /\ DsConfig.deref_dict (DsConfig.heap w') l = Some fields'
    /\ (DsConfig.universal_checkpoint (DsConfig.args world_path) = true ->
        DsConfig.dict_get "checkpoint" fields'
          = Some DsConfig.load_universal
        /\ forall key, key <> "checkpoint"%string ->
             DsConfig.dict_get key fields' = DsConfig.dict_get key ds_fields)
    /\ (DsConfig.universal_checkpoint (DsConfig.args world_path) = false ->
        fields' = ds_fields).
Proof.
  apply (DsConfigFacts.universal_checkpoint_replaces_checkpoint_section files
           world_path ds_fields).
  reflexivity.
Defined.

Lemma second_call_witness :
  DsConfig.deepspeed_config
    (DsConfig.args (DsConfig._create_ds_config_dict files world_path).2)
  = DsConfig.PyNone
  /\ DsConfig._create_ds_config_dict files
       (DsConfig._create_ds_config_dict files world_path).2
     = (DsConfig.Except DsConfig.TypeError,
        (DsConfig._create_ds_config_dict files world_path).2).
Proof.
  apply (DsConfigFacts.second_call_raises_type_error files world_path
           (DsConfig._create_ds_config_dict files world_path).2 0).
  reflexivity.
Defined.

Lemma dict_in_place_witness :
  exists w',
    DsConfig._create_ds_config_dict files world_dict = (DsConfig.Return 1, w')
    /\ length (DsConfig.heap w') = length (DsConfig.heap world_dict)
    /\ (forall l', l' <> 1 ->
          DsConfig.heap w' !! l' = DsConfig.heap world_dict !! l')
    /\ DsConfig.heap w' !! 1 =
         Some (DsConfig.JObj
                 (if DsConfig.universal_checkpoint (DsConfig.args world_dict)
                  then DsConfig.dict_set "checkpoint" DsConfig.load_universal
                         ds_fields
                  else ds_fields)).
Proof.
  apply (DsConfigFacts.dict_config_is_returned_in_place files world_dict 1
           ds_fields); reflexivity.
Defined.

Lemma failure_witness :
  DsConfig.args (DsConfig._create_ds_config_dict files world_missing).2
  = DsConfig.args world_missing
  /\ (forall l, l < length (DsConfig.heap world_missing) ->
        DsConfig.heap (DsConfig._create_ds_config_dict files world_missing).2
          !! l = DsConfig.heap world_missing !! l)
  /\ (DsConfig.FileNotFoundError = DsConfig.TypeError
      \/ exists path,
           DsConfig.deepspeed_config (DsConfig.args world_missing)
             = DsConfig.PyStr path
           /\ files path = DsConfig.Except DsConfig.FileNotFoundError).
Proof.
  apply (DsConfigFacts.failure_keeps_arguments files world_missing
           (DsConfig._create_ds_config_dict files world_missing).2
           DsConfig.FileNotFoundError).
  reflexivity.
Defined.

Lemma non_object_witness :
  (DsConfig._create_ds_config_dict files world_list).1
  = DsConfig.Except DsConfig.TypeError.
Proof.
  apply (DsConfigFacts.non_object_config_is_not_validated files world_list
           "list.json" (DsConfig.JArr [])); [reflexivity|reflexivity|].
  intros fields H. discriminate H.
Defined.

Lemma attention_mask_witness :
  exists m,
    Provider.attn_mask
      (Provider.model_provider (Config := unit) (Param := nat)
         (fun _ => tt) (fun _ => [4; 6]) true true args_pipe).1.2 = Some m
    /\ Provider.mask_shape m
       = [1; 1; Provider.seq_length (Provider.flags args_pipe);
          Provider.seq_length (Provider.flags args_pipe)]
    /\ length (Provider.mask_rows m)
       = Provider.seq_length (Provider.flags args_pipe)
    /\ forall r c,
         r < Provider.seq_length (Provider.flags args_pipe) ->
         c < Provider.seq_length (Provider.flags args_pipe) ->
         Provider.mask_at m r c = Some (bool_decide (r < c)).
Proof.
  apply (ProviderFacts.attention_mask_masks_future_positions (fun _ => tt)
           (fun _ => [4; 6]) true true args_pipe); reflexivity.
Defined.

Lemma list_of_models_witness :
  Provider.get_model (Config := unit) S (fun _ => false) id id 0 0 0
    provide_none tt true args_pipe
  = (DsConfig.Except DsConfig.AttributeError,
     Provider.mkArgs flags_pipe None (Some tt) None, []).
Proof.
  apply (ProviderFacts.list_of_models_raises_attribute_error S
           (fun _ => false) id id 0 0 0 provide_none tt true args_pipe
           (Provider.mkArgs flags_pipe None (Some tt) None) [] []).
  reflexivity.
Defined.

Lemma one_model_witness :
  exists ms a' ev,
    Provider.get_model (Config := unit) S (fun _ => false) id id 0 0 0
      (Provider.provide_default (fun _ => tt) (fun _ => [4; 6]))
      tt true args_pipe = (DsConfig.Return ms, a', ev)
    /\ exists m a1 ev1,
         Provider.provide_default (fun _ => tt) (fun _ => [4; 6])
           (Provider.mkArgs (Provider.flags args_pipe)
              (Provider.attn_mask args_pipe) (Some tt)
              (Provider.allow_transformer_engine args_pipe))
         = (DsConfig.Return (Provider.One m), a1, ev1)
         /\ ms = [Provider.mkModule (Provider.built m) (Some tt)
                    (Provider.megatron_batch_fn_is_get_batch_pipe m)
                    (S <$> Provider.parameters m)]
         /\ (Provider.is_GPTModel (Provider.built m) = true
             \/ Provider.transformer_impl (Provider.flags a1)
                = "local"%string)
         /\ Provider.allow_transformer_engine a'
            = Some (Provider.is_GPTModel (Provider.built m))
         /\ Provider.flags a' = Provider.flags a1
         /\ Provider.attn_mask a' = Provider.attn_mask a1
         /\ Provider.args_model_type a' = Provider.args_model_type a1.
Proof.
  eexists _, _, _. split; [vm_compute; reflexivity|].
  eapply (ProviderFacts.get_model_returns_one_model S (fun _ => false) id id
           0 0 0 (Provider.provide_default (fun _ => tt) (fun _ => [4; 6]))
           tt true args_pipe).
  vm_compute. reflexivity.
Defined.
